(** * discordchatbot: admission, rate limiting and the inference call of [bot.py]

    A shallow embedding of [src/bot.py] and the properties of its message
    handler.  Python values are modelled as the interpreter has them:

    - a [str] is a sequence of Unicode code points ([list N]), so that
      slicing, [startswith], [replace] and [strip] count code points;
    - [datetime] and [timedelta] are integer numbers of microseconds ([Z]),
      their resolution in CPython;
    - a [float] is the rational it stands for, and an operation on floats
      gives the exact result rounded to the nearest double ([Double.round]);
    - [user_cooldowns] (a dict) is a [gmap], [users_awaiting_response]
      (a set) is a [gset];
    - a raised exception is a value of [PyExc]; a computation that can raise
      returns a [result]: [Return a] or [Raise e]. *)

From Stdlib Require Import ZArith QArith Qabs Qround Qpower String Ascii List Lia Lqa.
From Stdlib Require Import Decimal DecimalString DecimalPos DecimalZ.
From Stdlib Require Import Floats.
From stdpp Require Import gmap.

#[local] Set Warnings "-register-all,-clear-no-such-hyp".
Local Open Scope Z_scope.

(** ** Python strings *)

Module PyStr.

Definition str := list N.

(** An ASCII literal of the source, as code points. *)
Definition lit (s : string) : str := map N_of_ascii (list_ascii_of_string s).

(** [str.isspace] for one code point: the code points CPython lists in
    [_PyUnicode_IsWhitespace]. *)
Definition isspace (c : N) : bool :=
  ((9 <=? c) && (c <=? 13) || (28 <=? c) && (c <=? 32)
   || (c =? 133) || (c =? 160) || (c =? 5760)
   || (8192 <=? c) && (c <=? 8202)
   || (c =? 8232) || (c =? 8233) || (c =? 8239) || (c =? 8287)
   || (c =? 12288))%N.

Fixpoint lstrip (s : str) : str :=
  match s with
  | c :: s' => if isspace c then lstrip s' else s
  | [] => []
  end.

Definition rstrip (s : str) : str := rev (lstrip (rev s)).

(** [s.strip()] *)
Definition strip (s : str) : str := rstrip (lstrip s).

(** [s.startswith(p)] *)
Fixpoint startswith (p s : str) : bool :=
  match p, s with
  | [], _ => true
  | a :: p', b :: s' => (a =? b)%N && startswith p' s'
  | _ :: _, [] => false
  end.

(** [s[n:]] for [n >= 0]: Python clamps the start to the length. *)
Definition slice_from (n : nat) (s : str) : str := skipn n s.

(** [s.replace(old, '')] for a non-empty [old]: the occurrences of [old]
    are removed from left to right, without overlap.  [pending] counts the
    code points of the occurrence being removed that are still ahead. *)
Fixpoint remove_from (old : str) (pending : nat) (s : str) : str :=
  match s with
  | [] => []
  | c :: s' =>
      match pending with
      | S k => remove_from old k s'
      | O => if startswith old s
             then remove_from old (Nat.pred (length old)) s'
             else c :: remove_from old O s'
      end
  end.

Definition remove_all (old s : str) : str := remove_from old O s.

(** [sub in s] for two strings. *)
Fixpoint contains (sub s : str) : bool :=
  startswith sub s ||
  match s with
  | [] => false
  | _ :: s' => contains sub s'
  end.

(** [str(z)] for an [int], as in an f-string. *)
Definition of_int (z : Z) : str := lit (NilZero.string_of_int (Z.to_int z)).

End PyStr.
Import PyStr.

(** ** Python floats

    A finite double is a rational of the form [m * 2^e] with a significand
    of at most 53 bits and an exponent of at least -1074.  The operations
    of the source ([int / int] inside [total_seconds], [int - float]) are
    correctly rounded: they give the double nearest to the exact result,
    a tie going to the even significand.  The results here are far below
    the largest double (the times of a [datetime] span less than 10^18
    microseconds), so overflow is left out. *)

Module Double.

(** The integer nearest to [q], a tie going to the even one. *)
Definition rint (q : Q) : Z :=
  let f := Qfloor q in
  match Qcompare (q - inject_Z f) (1 # 2) with
  | Lt => f
  | Gt => f + 1
  | Eq => if Z.even f then f else f + 1
  end.

(** For [q > 0]: the [e] with [2^e <= q < 2^(e+1)]. *)
Definition exponent (q : Q) : Z :=
  let e0 := Z.log2 (Qnum q) - Z.log2 (Zpos (Qden q)) in
  if Qle_bool (2 ^ e0) q then e0 else e0 - 1.

(** The double nearest to [q]: a multiple of [2^(e - 52)], where [e] is the
    exponent of [q], and -1022 for the subnormal range. *)
Definition round (q : Q) : Q :=
  if Qeq_bool q 0 then 0%Q else
  let e := Z.max (exponent (Qabs q)) (-1022) in
  let ulp := (2 ^ (e - 52))%Q in
  Qred (inject_Z (rint (q / ulp)) * ulp).

(** [float(z)] *)
Definition of_int (z : Z) : Q := round (inject_Z z).

(** [a / b] for two integers: the true quotient, rounded once. *)
Definition div_int (a b : Z) : Q := round (inject_Z a / inject_Z b).

(** [x - y] *)
Definition sub (x y : Q) : Q := round (x - y).

End Double.

(** The rational a machine double stands for ([None] for an infinity or a
    NaN), and the subtraction of line 109 carried out on machine doubles,
    for comparison with [Double]. *)
Definition float_value (f : float) : option Q :=
  match Prim2SF f with
  | S754_zero _ => Some 0%Q
  | S754_finite s m e =>
      Some (Qred (inject_Z (if s then Z.neg m else Z.pos m) * 2 ^ e))
  | _ => None
  end.

Definition float_of_Z (z : Z) : float :=
  if z <? 0 then PrimFloat.opp (PrimFloat.of_uint63 (Uint63.of_Z (- z)))
  else PrimFloat.of_uint63 (Uint63.of_Z z).

Definition remaining_on_machine (elapsed_us : Z) : option Q :=
  float_value (PrimFloat.sub (float_of_Z 15)
                 (PrimFloat.div (float_of_Z elapsed_us) (float_of_Z 1000000))).

(** ** Exceptions and computations that may raise *)

Inductive PyExc :=
| ClientConnectorError             (* aiohttp.ClientConnectorError *)
| TypeError
| KeyError
| IndexError
| AttributeError
| HTTPException                    (* discord.HTTPException *)
| OtherException (detail : str)    (* any other subclass of Exception *)
| CancelledError                   (* asyncio.CancelledError, a BaseException *)
| KeyboardInterrupt.               (* a BaseException as well *)

(** [isinstance(e, Exception)]: what [except Exception] catches. *)
Definition is_Exception (e : PyExc) : bool :=
  match e with
  | CancelledError | KeyboardInterrupt => false
  | _ => true
  end.

(** [isinstance(e, aiohttp.ClientConnectorError)] *)
Definition is_ClientConnectorError (e : PyExc) : bool :=
  match e with
  | ClientConnectorError => true
  | _ => false
  end.

Inductive result (A : Type) :=
| Return (a : A)
| Raise (e : PyExc).
Arguments Return {A} a.
Arguments Raise {A} e.

Definition bind {A B} (m : result A) (k : A -> result B) : result B :=
  match m with
  | Return a => k a
  | Raise e => Raise e
  end.

Notation "'let!' x ':=' m 'in' k" := (bind m (fun x => k))
  (at level 10, x name, m at level 100, k at level 200).

(** ** JSON values as [response.json()] builds them *)

Inductive json :=
| JNull
| JBool (b : bool)
| JInt (z : Z)
| JFloat (q : Q)
| JStr (s : str)
| JList (l : list json)
| JDict (d : gmap str json).

Module PyValue.

(** Truth value of an object in a condition. *)
Definition truthy (v : json) : bool :=
  match v with
  | JNull => false
  | JBool b => b
  | JInt z => negb (z =? 0)
  | JFloat q => negb (Qeq_bool q 0)
  | JStr s => match s with [] => false | _ => true end
  | JList l => match l with [] => false | _ => true end
  | JDict d => negb (bool_decide (d = ∅))
  end.

(** [v == key] for a string [key]. *)
Definition eq_str (key : str) (v : json) : bool :=
  match v with
  | JStr s => bool_decide (s = key)
  | _ => false
  end.

(** [key in v] for a string [key]. *)
Definition py_in (key : str) (v : json) : result bool :=
  match v with
  | JDict d => Return (bool_decide (is_Some (d !! key)))
  | JList l => Return (existsb (eq_str key) l)
  | JStr s => Return (contains key s)
  | JNull | JBool _ | JInt _ | JFloat _ => Raise TypeError
  end.

(** [v[key]] for a string [key]. *)
Definition getitem (v : json) (key : str) : result json :=
  match v with
  | JDict d => match d !! key with
               | Some x => Return x
               | None => Raise KeyError
               end
  | _ => Raise TypeError
  end.

(** [v[0]].  The keys of a parsed JSON object are strings, so the lookup
    of the integer key fails on a dict. *)
Definition getitem0 (v : json) : result json :=
  match v with
  | JList l => match l with
               | x :: _ => Return x
               | [] => Raise IndexError
               end
  | JStr s => match s with
              | c :: _ => Return (JStr [c])
              | [] => Raise IndexError
              end
  | JDict _ => Raise KeyError
  | JNull | JBool _ | JInt _ | JFloat _ => Raise TypeError
  end.

(** [v.strip()] *)
Definition py_strip (v : json) : result str :=
  match v with
  | JStr s => Return (strip s)
  | _ => Raise AttributeError
  end.

End PyValue.
Import PyValue.

(** ** The inference call: [get_ai_response] *)

Record ChatMessage := { role : str; text : str }.

Record Payload := { messages : list ChatMessage; temperature : Q }.

Record Request := { url : str; headers : list (str * str); data : Payload }.

(** What the handler reads from the response object: [response.status],
    and what awaiting [response.json()] and [response.text()] give. *)
Record Response := {
  status : Z;
  json_body : result json;
  text_body : result str
}.

(** The HTTP layer: opening the session and posting either raises or gives
    a response. *)
Definition HttpLayer := Request -> result Response.

(** The diagnostics printed on the server side. *)
Inductive LogLine :=
| LogUnexpectedFormat (body : json)
| LogApiError (code : Z) (error_text : str)
| LogCannotConnect
| LogUnexpected (e : PyExc).

Module Inference.

Definition msg_not_configured : str :=
  lit "Error: The LM Studio API endpoint is not configured.".
Definition msg_malformed : str :=
  lit "Sorry, I received an unexpected response from the AI.".
Definition msg_upstream (code : Z) : str :=
  lit "Sorry, the AI service returned an error (Status: " ++ of_int code ++ lit ").".
Definition msg_unreachable : str :=
  lit "Sorry, I can't reach the AI at the moment. Please make sure the local server is running.".
Definition msg_unexpected : str :=
  lit "An unexpected error occurred while trying to contact the AI.".

(** [not LM_STUDIO_ENDPOINT]: the variable is [None] or the empty string. *)
Definition endpoint_missing (endpoint : option str) : bool :=
  match endpoint with
  | None | Some [] => true
  | Some (_ :: _) => false
  end.

Definition build_request (endpoint : str) (prompt : str) : Request :=
  {| url := endpoint;
     headers := [(lit "Content-Type", lit "application/json")];
     data := {| messages :=
                  [ {| role := lit "system"; text := lit "You are a helpful assistant." |};
                    {| role := lit "user"; text := prompt |} ];
                temperature := 7 # 10 |} |}.

(** Lines 54-55: the check of the expected keys and the extraction of the
    generated text; [None] when the check is false. *)
Definition extract_content (body : json) : result (option str) :=
  let! has_choices := py_in (lit "choices") body in
  if negb has_choices then Return None else
  let! choices := getitem body (lit "choices") in
  if negb (truthy choices) then Return None else
  let! first := getitem0 choices in
  let! has_message := py_in (lit "message") first in
  if negb has_message then Return None else
  let! message := getitem first (lit "message") in
  let! has_content := py_in (lit "content") message in
  if negb has_content then Return None else
  let! generated := getitem message (lit "content") in
  let! stripped := py_strip generated in
  Return (Some stripped).

(** The body of the [try] block, lines 49-62. *)
Definition attempt (http : HttpLayer) (req : Request) : list LogLine * result str :=
  match http req with
  | Raise e => ([], Raise e)
  | Return response =>
      if status response =? 200 then
        match json_body response with
        | Raise e => ([], Raise e)
        | Return body =>
            match extract_content body with
            | Raise e => ([], Raise e)
            | Return (Some generated) => ([], Return generated)
            | Return None => ([LogUnexpectedFormat body], Return msg_malformed)
            end
        end
      else
        match text_body response with
        | Raise e => ([], Raise e)
        | Return error_text =>
            ([LogApiError (status response) error_text],
             Return (msg_upstream (status response)))
        end
  end.

(** [get_ai_response(prompt)], with the module constant
    [LM_STUDIO_ENDPOINT] and the HTTP layer as parameters.  The two
    [except] clauses are tried in order; an exception neither clause
    matches leaves the function. *)
Definition get_ai_response (endpoint : option str) (http : HttpLayer)
    (prompt : str) : list LogLine * result str :=
  if endpoint_missing endpoint then ([], Return msg_not_configured) else
  let '(log, r) := attempt http (build_request (default [] endpoint) prompt) in
  match r with
  | Return reply => (log, Return reply)
  | Raise e =>
      if is_ClientConnectorError e then (log ++ [LogCannotConnect], Return msg_unreachable)
      else if is_Exception e then (log ++ [LogUnexpected e], Return msg_unexpected)
      else (log, Raise e)
  end.

End Inference.
Import Inference.

(** ** The rate-limiting state and the message handler *)

(** The two module-level containers.  A cooldown entry is the [datetime] of
    the last recorded request, in microseconds. *)
Record BotState := {
  user_cooldowns : gmap N Z;
  users_awaiting_response : gset N
}.

(** What the handler reads from a [discord.Message]: [message.author.id],
    [message.content], and the answer of [bot.user.mentioned_in(message)],
    which the gateway library computes from the message's mention lists. *)
Record Message := {
  author_id : N;
  content : str;
  is_mention : bool
}.

(** What the outside world answers during one run of the handler. *)
Record World := {
  clock_check : Z;                  (* [datetime.now()] on line 107 *)
  notice_delivery : option PyExc;   (* sending a rejection notice: [None] is success *)
  typing_enter : option PyExc;      (* entering [message.channel.typing()] *)
  http : HttpLayer;
  reply_delivery : option PyExc;    (* [message.channel.send(ai_response)] *)
  clock_done : Z                    (* [datetime.now()] on line 135 *)
}.

(** The notices of lines 103, 110 and 123.  The cooldown notice carries the
    value of [remaining_time]; the f-string of line 110 prints it with one
    decimal ([:.1f]), a text that is not built here. *)
Inductive Notice :=
| PleaseWait                        (* "Please wait for your previous request to complete." *)
| CooldownNotice (remaining : Q)    (* "You're on a cooldown. Please wait ... more seconds." *)
| ProvidePrompt.                    (* "Please provide a prompt after the command or mention!" *)

(** The actions of a run, in the order the handler performs them. *)
Inductive Action :=
| SendNotice (n : Notice) (delete_after : Z)
| AwaitingAdd (user_id : N)
| Typing
| Ask (prompt : str)
| Log (l : LogLine)
| SendReply (reply : str)
| CooldownSet (user_id : N) (now : Z)
| AwaitingRemove (user_id : N).

(** The exits of lines 86-124, and the prompt when none is taken. *)
Inductive Admission :=
| Ignored
| AlreadyInFlight
| OnCooldown (remaining : Q)
| EmptyPrompt
| Accepted (prompt : str).

Definition COOLDOWN_SECONDS : Z := 15.

(** [timedelta(seconds=s)] in microseconds. *)
Definition timedelta_of_seconds (s : Z) : Z := s * 1000000.

(** [td.total_seconds()]: the microseconds divided by [10**6], a float. *)
Definition total_seconds (td : Z) : Q := Double.div_int td 1000000.

Definition is_command (m : Message) : bool := startswith (lit "!ask") (content m).

(** The f-string [<@{bot.user.id}>]. *)
Definition mention_token (self_id : N) : str :=
  lit "<@" ++ of_int (Z.of_N self_id) ++ lit ">".

(** Lines 114-120.  The last branch is not reached by a message that passed
    the trigger check on line 94. *)
Definition extract_prompt (self_id : N) (m : Message) : str :=
  if is_command m then strip (slice_from (length (lit "!ask ")) (content m))
  else if is_mention m then strip (remove_all (mention_token self_id) (content m))
  else [].

(** Line 109: [COOLDOWN_SECONDS - time_since_last_request.total_seconds()],
    an [int] minus a [float]. *)
Definition remaining_time (time_since_last_request : Z) : Q :=
  Double.sub (Double.of_int COOLDOWN_SECONDS) (total_seconds time_since_last_request).

(** Lines 106-111: the remaining seconds when the user is on cooldown.  The
    comparison of line 108 is one of two [timedelta]s, that is of integers. *)
Definition cooldown_check (st : BotState) (now : Z) (user_id : N) : option Q :=
  match user_cooldowns st !! user_id with
  | Some last =>
      let time_since_last_request := now - last in
      if time_since_last_request <? timedelta_of_seconds COOLDOWN_SECONDS
      then Some (remaining_time time_since_last_request)
      else None
  | None => None
  end.

(** Lines 86-124 of [on_message].  [message.author == bot.user] compares
    the two ids. *)
Definition admission (self_id : N) (st : BotState) (now : Z) (m : Message) : Admission :=
  if (author_id m =? self_id)%N then Ignored else
  if negb (is_command m) && negb (is_mention m) then Ignored else
  let user_id := author_id m in
  if bool_decide (user_id ∈ users_awaiting_response st) then AlreadyInFlight else
  match cooldown_check st now user_id with
  | Some remaining => OnCooldown remaining
  | None =>
      match extract_prompt self_id m with
      | [] => EmptyPrompt
      | prompt => Accepted prompt
      end
  end.

Definition set_awaiting (st : BotState) (s : gset N) : BotState :=
  {| user_cooldowns := user_cooldowns st; users_awaiting_response := s |}.

Definition set_cooldown (st : BotState) (user_id : N) (now : Z) : BotState :=
  {| user_cooldowns := <[user_id := now]> (user_cooldowns st);
     users_awaiting_response := users_awaiting_response st |}.

(** [s.remove(x)] raises [KeyError] when [x] is not a member. *)
Definition set_remove (x : N) (s : gset N) : result (gset N) :=
  if bool_decide (x ∈ s) then Return (s ∖ {[x]}) else Raise KeyError.

(** The state, the actions and the exception (if any) a piece of the
    handler ends with. *)
Definition Run : Type := BotState * list Action * option PyExc.

(** Lines 129-135, the body of the [try]. *)
Definition try_body (endpoint : option str) (w : World) (st : BotState)
    (user_id : N) (prompt : str) : Run :=
  match typing_enter w with
  | Some e => (st, [Typing], Some e)
  | None =>
      let '(log, r) := get_ai_response endpoint (http w) prompt in
      let asked := Typing :: Ask prompt :: map Log log in
      match r with
      | Raise e => (st, asked, Some e)
      | Return ai_response =>
          match reply_delivery w with
          | Some e => (st, asked ++ [SendReply ai_response], Some e)
          | None =>
              (set_cooldown st user_id (clock_done w),
               asked ++ [SendReply ai_response; CooldownSet user_id (clock_done w)],
               None)
          end
      end
  end.

(** Lines 136-138, the [finally] clause run after the body. *)
Definition finally_release (user_id : N) (r : Run) : Run :=
  let '(st, actions, exc) := r in
  match set_remove user_id (users_awaiting_response st) with
  | Return s => (set_awaiting st s, actions ++ [AwaitingRemove user_id], exc)
  | Raise e => (st, actions, Some e)
  end.

(** Lines 126-138: the pipeline of an admitted request. *)
Definition pipeline (endpoint : option str) (w : World) (st : BotState)
    (user_id : N) (prompt : str) : Run :=
  let st1 := set_awaiting st ({[user_id]} ∪ users_awaiting_response st) in
  let '(st2, actions, exc) := try_body endpoint w st1 user_id prompt in
  finally_release user_id (st2, AwaitingAdd user_id :: actions, exc).

(** [on_message(message)], run without interleaving with another handler. *)
Definition on_message (self_id : N) (endpoint : option str) (w : World)
    (st : BotState) (m : Message) : Run :=
  match admission self_id st (clock_check w) m with
  | Ignored => (st, [], None)
  | AlreadyInFlight => (st, [SendNotice PleaseWait 10], notice_delivery w)
  | OnCooldown remaining => (st, [SendNotice (CooldownNotice remaining) 10], notice_delivery w)
  | EmptyPrompt => (st, [SendNotice ProvidePrompt 10], notice_delivery w)
  | Accepted prompt => pipeline endpoint w st (author_id m) prompt
  end.

(** ** Start-up: the [__main__] block *)

Inductive Startup :=
| Refused (printed : str) (exit_status : Z)   (* the script ends without running the bot *)
| Running (token : str).                      (* [bot.run(DISCORD_TOKEN)] is called *)

(** The interpreter's exit status when the script reaches its end without
    an exception and without a call of [sys.exit]. *)
Definition EXIT_END_OF_SCRIPT : Z := 0.

(** Lines 142-148, with the two [os.getenv] results as parameters. *)
Definition main (DISCORD_TOKEN LM_STUDIO_ENDPOINT : option str) : Startup :=
  match DISCORD_TOKEN with
  | None => Refused (lit "FATAL ERROR: DISCORD_TOKEN is not set in the .env file.")
                    EXIT_END_OF_SCRIPT
  | Some token =>
      match LM_STUDIO_ENDPOINT with
      | None => Refused (lit "FATAL ERROR: LM_STUDIO_ENDPOINT is not set in the .env file.")
                        EXIT_END_OF_SCRIPT
      | Some _ => Running token
      end
  end.

Definition empty_state : BotState :=
  {| user_cooldowns := ∅; users_awaiting_response := ∅ |}.

(** ** Auxiliary notions used to state the properties *)

(** The failure exits of [get_ai_response], named as the specification
    names them. *)
Inductive FailureKind :=
| EndpointNotConfigured
| ConnectionRefused
| UpstreamError (statusCode : Z)
| MalformedResponse
| UnknownError.

Inductive InferenceOutcome :=
| Text (generated : str)
| Failure (k : FailureKind).

(** The text the user receives for each failure. *)
Definition failure_message (k : FailureKind) : str :=
  match k with
  | EndpointNotConfigured => msg_not_configured
  | ConnectionRefused => msg_unreachable
  | UpstreamError code => msg_upstream code
  | MalformedResponse => msg_malformed
  | UnknownError => msg_unexpected
  end.

Definition reply_of (o : InferenceOutcome) : str :=
  match o with
  | Text generated => generated
  | Failure k => failure_message k
  end.

(** Which exit of [get_ai_response] a call takes: the same tests in the
    same order, with the exit's name in place of its text. *)
Definition classify_attempt (http : HttpLayer) (req : Request) : result InferenceOutcome :=
  let! response := http req in
  if status response =? 200 then
    let! body := json_body response in
    let! generated := extract_content body in
    match generated with
    | Some s => Return (Text s)
    | None => Return (Failure MalformedResponse)
    end
  else
    let! _error_text := text_body response in
    Return (Failure (UpstreamError (status response))).

Definition classify (endpoint : option str) (http : HttpLayer) (prompt : str)
    : result InferenceOutcome :=
  if endpoint_missing endpoint then Return (Failure EndpointNotConfigured) else
  match classify_attempt http (build_request (default [] endpoint) prompt) with
  | Return o => Return o
  | Raise e =>
      if is_ClientConnectorError e then Return (Failure ConnectionRefused)
      else if is_Exception e then Return (Failure UnknownError)
      else Raise e
  end.

(** A computation that raises instances of [Exception] only. *)
Definition tame {A} (r : result A) : Prop :=
  forall e, r = Raise e -> is_Exception e = true.

(** The HTTP layer raises instances of [Exception] only, at each of the
    three places where the handler awaits it. *)
Definition raises_only_Exception (http : HttpLayer) : Prop :=
  forall req,
    match http req with
    | Raise e => is_Exception e = true
    | Return response =>
        (forall e, json_body response = Raise e -> is_Exception e = true) /\
        (forall e, text_body response = Raise e -> is_Exception e = true)
    end.

(** The admission rules of the specification, one by one: [Some d] when the
    rule applies and decides [d]. *)
Module Rules.

Definition self_author (self_id : N) (m : Message) : option Admission :=
  if (author_id m =? self_id)%N then Some Ignored else None.

Definition no_trigger (m : Message) : option Admission :=
  if is_command m || is_mention m then None else Some Ignored.

Definition in_flight (st : BotState) (m : Message) : option Admission :=
  if bool_decide (author_id m ∈ users_awaiting_response st)
  then Some AlreadyInFlight else None.

Definition cooldown (st : BotState) (now : Z) (m : Message) : option Admission :=
  option_map OnCooldown (cooldown_check st now (author_id m)).

Definition empty_prompt (self_id : N) (m : Message) : option Admission :=
  match extract_prompt self_id m with
  | [] => Some EmptyPrompt
  | _ => None
  end.

(** The decision of the first rule that applies. *)
Fixpoint first_match (rules : list (option Admission)) : option Admission :=
  match rules with
  | [] => None
  | Some d :: _ => Some d
  | None :: rest => first_match rest
  end.

Definition decide_in_order (self_id : N) (st : BotState) (now : Z) (m : Message)
    : Admission :=
  default (Accepted (extract_prompt self_id m))
    (first_match [ self_author self_id m; no_trigger m; in_flight st m;
                   cooldown st now m; empty_prompt self_id m ]).

End Rules.

(** The users removed from [users_awaiting_response] during a run, in
    order. *)
Fixpoint removals (actions : list Action) : list N :=
  match actions with
  | [] => []
  | AwaitingRemove u :: rest => u :: removals rest
  | _ :: rest => removals rest
  end.

(** The prompts handed to [get_ai_response] during a run. *)
Fixpoint asked_prompts (actions : list Action) : list str :=
  match actions with
  | [] => []
  | Ask p :: rest => p :: asked_prompts rest
  | _ :: rest => asked_prompts rest
  end.

(** The message triggers the bot: the test of line 94 does not return. *)
Definition triggers (m : Message) : bool := is_command m || is_mention m.

(** The content without its trigger marker and the surrounding white space,
    in the words of the specification: the command prefix is the four code
    points of [!ask], the mention marker is the token [<@id>]. *)
Definition stripped_of_marker (self_id : N) (m : Message) : str :=
  if is_command m then strip (slice_from (length (lit "!ask")) (content m))
  else strip (remove_all (mention_token self_id) (content m)).

(** ** Handlers interleaved by the event loop

    The handler is a coroutine: between two of its [await]s it runs alone,
    and at an [await] of the pipeline the event loop may run pieces of other
    handlers.  The rejection exits and the admission run from line 86 to
    line 127 without touching the state after an [await], so a handler is
    visible to the others only while it is in the pipeline. *)

Module Loop.

(** Where a handler is suspended in its pipeline. *)
Inductive Stage :=
| Inferring                       (* lines 129-131: typing indicator, inference call *)
| Replying (reply : str)          (* line 133: the reply is being sent *)
| Leaving (exc : option PyExc).   (* the body of the [try] is over, [finally] is next *)

Record Task := { user : N; prompt : str; stage : Stage }.

Record System := { shared : BotState; tasks : list Task }.

Definition at_stage (t : Task) (s : Stage) : Task :=
  {| user := user t; prompt := prompt t; stage := s |}.

Definition initial : System := {| shared := empty_state; tasks := [] |}.

(** One uninterrupted piece of one handler. *)
Inductive step (self_id : N) (endpoint : option str) : System -> System -> Prop :=
| step_message st ts now m :
    (* a message arrives and is decided; an accepted one enters the pipeline *)
    step self_id endpoint
      {| shared := st; tasks := ts |}
      match admission self_id st now m with
      | Accepted p =>
          {| shared := set_awaiting st ({[author_id m]} ∪ users_awaiting_response st);
             tasks := {| user := author_id m; prompt := p; stage := Inferring |} :: ts |}
      | _ => {| shared := st; tasks := ts |}
      end
| step_typing_raises st before t after e :
    stage t = Inferring ->
    step self_id endpoint
      {| shared := st; tasks := before ++ t :: after |}
      {| shared := st; tasks := before ++ at_stage t (Leaving (Some e)) :: after |}
| step_inference_done st before t after http :
    stage t = Inferring ->
    step self_id endpoint
      {| shared := st; tasks := before ++ t :: after |}
      {| shared := st;
         tasks := before ++
           at_stage t match snd (get_ai_response endpoint http (prompt t)) with
                      | Return reply => Replying reply
                      | Raise e => Leaving (Some e)
                      end :: after |}
| step_reply_raises st before t after reply e :
    stage t = Replying reply ->
    step self_id endpoint
      {| shared := st; tasks := before ++ t :: after |}
      {| shared := st; tasks := before ++ at_stage t (Leaving (Some e)) :: after |}
| step_reply_sent st before t after reply now :
    stage t = Replying reply ->
    step self_id endpoint
      {| shared := st; tasks := before ++ t :: after |}
      {| shared := set_cooldown st (user t) now;
         tasks := before ++ at_stage t (Leaving None) :: after |}
| step_leave st before t after exc :
    stage t = Leaving exc ->
    step self_id endpoint
      {| shared := st; tasks := before ++ t :: after |}
      {| shared := match set_remove (user t) (users_awaiting_response st) with
                   | Return s => set_awaiting st s
                   | Raise _ => st
                   end;
         tasks := before ++ after |}.

(** The users being served are exactly the members of
    [users_awaiting_response], each served by one handler. *)
Definition consistent (sys : System) : Prop :=
  NoDup (map user (tasks sys)) /\
  forall u, u ∈ users_awaiting_response (shared sys) <-> u ∈ map user (tasks sys).

End Loop.

(** ** Notions used by the further properties *)

(** The generated text of a response body of the expected shape: an object
    whose [choices] is a list that begins with an object, whose [message]
    is an object, whose [content] is a string. *)
Definition answer_of (body : json) : option str :=
  match body with
  | JDict d =>
      match d !! lit "choices" with
      | Some (JList (JDict first :: _)) =>
          match first !! lit "message" with
          | Some (JDict message) =>
              match message !! lit "content" with
              | Some (JStr generated) => Some (strip generated)
              | _ => None
              end
          | _ => None
          end
      | _ => None
      end
  | _ => None
  end.

(** The handlers of a system serve users other than the bot, each with a
    prompt that is not empty and has no white space around it, and the bot
    has no cooldown entry. *)
Definition well_served (self_id : N) (sys : Loop.System) : Prop :=
  Forall (fun t => Loop.user t <> self_id /\ Loop.prompt t <> [] /\
                   strip (Loop.prompt t) = Loop.prompt t)
         (Loop.tasks sys) /\
  user_cooldowns (Loop.shared sys) !! self_id = None.

(** A decimal digit. *)
Definition is_digit (c : N) : bool := ((48 <=? c) && (c <=? 57))%N.

(** The rejection notices a run sends, each with its [delete_after]. *)
Fixpoint notices (actions : list Action) : list (Notice * Z) :=
  match actions with
  | [] => []
  | SendNotice n delete_after :: rest => (n, delete_after) :: notices rest
  | _ :: rest => notices rest
  end.

(** The replies a run sends with [message.channel.send(ai_response)]. *)
Fixpoint replies (actions : list Action) : list str :=
  match actions with
  | [] => []
  | SendReply reply :: rest => reply :: replies rest
  | _ :: rest => replies rest
  end.

(** Line 109 on machine doubles gives the value [remaining_time] gives. *)
Definition machine_agrees (elapsed_us : Z) : bool :=
  match remaining_on_machine elapsed_us with
  | Some v => Qeq_bool v (remaining_time elapsed_us)
  | None => false
  end.

(** Elapsed times from 20 seconds before the entry to the end of the
    window, 7919 microseconds apart, and every microsecond of the last two
    milliseconds of the window. *)
Definition sample_times : list Z :=
  map (fun k => -20000000 + 7919 * Z.of_nat k) (seq 0 4420) ++
  map (fun k => 14998000 + Z.of_nat k) (seq 0 2000).

(** * Properties *)

(** ** Strings *)

Example strip_demo : strip (lit "  what is  ") = lit "what is".
Proof. reflexivity. Qed.
Example remove_demo : remove_all (lit "<@42>") (lit "a<@42>b<@42><@4") = lit "ab<@4".
Proof. reflexivity. Qed.
Example of_int_demo : of_int 503 = lit "503" /\ of_int (-1) = lit "-1" /\ of_int 0 = lit "0".
Proof. repeat split. Qed.

Section StrFacts.

Lemma startswith_app (p rest : str) : startswith p (p ++ rest) = true.
Proof.
  induction p as [|a p IH]; simpl; [reflexivity|].
  now rewrite N.eqb_refl.
Qed.

Lemma startswith_inv (p s : str) :
  startswith p s = true -> exists rest, s = p ++ rest.
Proof.
  revert s; induction p as [|a p IH]; intros s H.
  - now exists s.
  - destruct s as [|b s]; simpl in H; [discriminate|].
    apply andb_prop in H as [Hab Hps].
    apply N.eqb_eq in Hab as ->.
    destruct (IH _ Hps) as [rest ->].
    now exists rest.
Qed.

Lemma startswith_refl (p : str) : startswith p p = true.
Proof.
  rewrite <- (app_nil_r p) at 2. apply startswith_app.
Qed.

Lemma remove_from_pending (old s : str) :
  remove_from old (length s) s = [].
Proof.
  induction s as [|c s IH]; simpl; [reflexivity|exact IH].
Qed.

(** Removing a non-empty string from itself leaves nothing. *)
Lemma remove_all_self (old : str) : remove_all old old = [].
Proof.
  unfold remove_all. destruct old as [|c old]; [reflexivity|].
  cbn [remove_from]. rewrite startswith_refl.
  cbn [length Nat.pred]. apply remove_from_pending.
Qed.

Lemma lstrip_nil_iff (s : str) : lstrip s = [] <-> forallb isspace s = true.
Proof.
  induction s as [|c s IH]; simpl; [tauto|].
  destruct (isspace c); simpl; [exact IH|].
  split; discriminate.
Qed.

Lemma lstrip_all_space (s : str) :
  forallb isspace (lstrip s) = true -> lstrip s = [].
Proof.
  induction s as [|c s IH]; simpl; [reflexivity|].
  destruct (isspace c) eqn:E; [exact IH|].
  simpl. rewrite E. discriminate.
Qed.

Lemma forallb_rev (f : N -> bool) (s : str) : forallb f (rev s) = forallb f s.
Proof.
  induction s as [|c s IH]; simpl; [reflexivity|].
  rewrite forallb_app, IH. simpl. rewrite andb_true_r. apply andb_comm.
Qed.

(** [s.strip()] is empty exactly when [s] is whitespace only. *)
Lemma strip_nil_iff (s : str) : strip s = [] <-> forallb isspace s = true.
Proof.
  unfold strip, rstrip. split.
  - intros H. apply lstrip_nil_iff, lstrip_all_space.
    apply (f_equal (@rev N)) in H. rewrite rev_involutive in H. simpl in H.
    apply lstrip_nil_iff in H. now rewrite forallb_rev in H.
  - intros H. apply lstrip_nil_iff in H. now rewrite H.
Qed.

Lemma forallb_skipn (f : N -> bool) (n : nat) (s : str) :
  forallb f s = true -> forallb f (skipn n s) = true.
Proof.
  revert s; induction n as [|n IH]; intros [|c s]; simpl; auto.
  intros H. apply andb_prop in H as [_ H]. now apply IH.
Qed.

Lemma lit_inj (a b : string) : lit a = lit b -> a = b.
Proof.
  unfold lit. intros H.
  rewrite <- (string_of_list_ascii_of_string a), <- (string_of_list_ascii_of_string b).
  f_equal.
  revert H. generalize (list_ascii_of_string a) (list_ascii_of_string b).
  intros la; induction la as [|x la IH]; intros [|y lb]; simpl; try discriminate.
  - reflexivity.
  - intros [= Hxy Hrest]. f_equal; [|now apply IH].
    rewrite <- (ascii_N_embedding x), <- (ascii_N_embedding y). now rewrite Hxy.
Qed.

(** The decimal rendering of an integer determines it. *)
Lemma of_int_inj (a b : Z) : of_int a = of_int b -> a = b.
Proof.
  unfold of_int. intros H. apply lit_inj in H.
  assert (Hnz : forall z, Z.to_int z <> Decimal.Pos Nil /\ Z.to_int z <> Decimal.Neg Nil).
  { intros [|p|p]; simpl; split; try discriminate;
      intros [= Hp]; now apply (Unsigned.to_uint_nonnil p). }
  apply DecimalZ.to_int_inj.
  assert (Some (Z.to_int a) = Some (Z.to_int b)) as [= ->]; [|reflexivity].
  rewrite <- (NilZero.isi (Z.to_int a)), <- (NilZero.isi (Z.to_int b));
    try apply Hnz.
  now rewrite H.
Qed.

End StrFacts.

(** ** Floats *)

Section DoubleFacts.

Import Double.

Lemma rint_close (q : Q) : (Qabs (inject_Z (rint q) - q) <= 1 # 2)%Q.
Proof.
  unfold rint.
  pose proof (Qfloor_le q) as Hlo. pose proof (Qlt_floor q) as Hhi.
  rewrite inject_Z_plus in Hhi. change (inject_Z 1) with 1%Q in Hhi.
  apply Qabs_Qle_condition.
  destruct (Qcompare_spec (q - inject_Z (Qfloor q)) (1 # 2)) as [He|Hl|Hg].
  - destruct (Z.even (Qfloor q));
      rewrite ?inject_Z_plus; change (inject_Z 1) with 1%Q; split; lra.
  - split; lra.
  - rewrite inject_Z_plus. change (inject_Z 1) with 1%Q. split; lra.
Qed.

Lemma two_power_pos (e : Z) : (0 < 2 ^ e)%Q.
Proof. apply Qpower_0_lt. reflexivity. Qed.

Lemma exponent_le (q : Q) : (0 < q)%Q -> (2 ^ exponent q <= q)%Q.
Proof.
  intros Hq. unfold exponent.
  destruct (Qle_bool _ q) eqn:E; [now apply Qle_bool_iff|].
  destruct q as [a b]. cbn [Qnum Qden].
  assert (Ha : 0 < a) by (unfold Qlt in Hq; simpl in Hq; lia).
  pose proof (Z.log2_spec a Ha) as [Hla _].
  pose proof (Z.log2_spec (Z.pos b) (Pos2Z.is_pos b)) as [_ Hlb].
  pose proof (Z.log2_nonneg a) as Hna.
  pose proof (Z.log2_nonneg (Z.pos b)) as Hnb.
  replace (Z.log2 a - Z.log2 (Z.pos b) - 1) with (Z.log2 a - Z.succ (Z.log2 (Z.pos b)))
    by lia.
  rewrite Qpower_minus by discriminate.
  apply Qle_shift_div_r; [apply two_power_pos|].
  change 2%Q with (inject_Z 2).
  rewrite <- !Zpower_Qpower by lia.
  unfold Qle, Qmult, inject_Z. cbn [Qnum Qden].
  rewrite !Z.mul_1_r, Pos.mul_1_r.
  pose proof (Pos2Z.is_pos b).
  generalize dependent (2 ^ Z.log2 a). generalize dependent (2 ^ Z.succ (Z.log2 (Z.pos b))).
  intros. nia.
Qed.

Lemma round_error (q : Q) :
  (Qabs (round q - q) <= Qabs q * (1 # 2 ^ 53) + (1 # 2 ^ 1075))%Q.
Proof.
  unfold round. destruct (Qeq_bool q 0) eqn:E.
  - apply Qeq_bool_iff in E. rewrite E. vm_compute. discriminate.
  - apply Qeq_bool_neq in E. cbv zeta. rewrite Qred_correct.
    set (e := Z.max (exponent (Qabs q)) (-1022)).
    set (ulp := (2 ^ (e - 52))%Q).
    assert (Hulp : (0 < ulp)%Q) by apply two_power_pos.
    assert (Hq : (q == q / ulp * ulp)%Q) by (field; lra).
    assert (Hhalf : (Qabs (inject_Z (rint (q / ulp)) * ulp - q) <= (1 # 2) * ulp)%Q).
    { rewrite Hq at 2.
      assert (Hf : (inject_Z (rint (q / ulp)) * ulp - q / ulp * ulp
                    == (inject_Z (rint (q / ulp)) - q / ulp) * ulp)%Q) by ring.
      rewrite Hf, Qabs_Qmult, (Qabs_pos ulp) by lra.
      apply Qmult_le_compat_r; [apply rint_close|lra]. }
    assert (Hsplit : ((1 # 2) * ulp == 2 ^ e * (1 # 2 ^ 53))%Q).
    { unfold ulp. rewrite Qpower_minus by discriminate.
      generalize (2 ^ e)%Q. intros x.
      assert (Hc : ((1 # 2) * / 2 ^ 52 == 1 # 2 ^ 53)%Q) by reflexivity.
      rewrite <- Hc. unfold Qdiv. ring. }
    rewrite Hsplit in Hhalf.
    pose proof (Qabs_nonneg q) as Hnn.
    assert (Hpos : (0 < Qabs q)%Q).
    { destruct (Qlt_le_dec 0 (Qabs q)) as [H|H]; [exact H|].
      exfalso. apply E. apply Qabs_Qle_condition in H. lra. }
    destruct (Z.max_spec (exponent (Qabs q)) (-1022)) as [[_ He]|[_ He]];
      fold e in He.
    + subst e. rewrite He in Hhalf.
      change (2 ^ (-1022) * (1 # 2 ^ 53))%Q with
        ((2 ^ (-1022) * (1 # 2 ^ 53)))%Q in Hhalf.
      assert (Hc : (2 ^ (-1022) * (1 # 2 ^ 53) == 1 # 2 ^ 1075)%Q)
        by (vm_compute; reflexivity).
      rewrite Hc in Hhalf.
      assert (0 <= Qabs q * (1 # 2 ^ 53))%Q by (apply Qmult_le_0_compat; [lra|discriminate]).
      lra.
    + rewrite He in Hhalf.
      pose proof (exponent_le _ Hpos) as Hexp.
      assert (2 ^ exponent (Qabs q) * (1 # 2 ^ 53) <= Qabs q * (1 # 2 ^ 53))%Q
        by (apply Qmult_le_compat_r; [exact Hexp|discriminate]).
      assert (0 < 1 # 2 ^ 1075)%Q by reflexivity.
      lra.
Qed.

(** The rounding error, relative to [|q| + 1]. *)
Lemma round_close (q : Q) :
  (Qabs (round q - q) <= (Qabs q + 1) * (1 # 9007199254740992))%Q.
Proof.
  pose proof (round_error q) as H.
  change (1 # 2 ^ 53)%Q with (1 # 9007199254740992)%Q in H.
  assert (Ht : (1 # 2 ^ 1075 <= 1 # 9007199254740992)%Q) by (vm_compute; discriminate).
  lra.
Qed.

End DoubleFacts.

Lemma fifteen_exact : Double.of_int COOLDOWN_SECONDS = 15%Q.
Proof. vm_compute. reflexivity. Qed.

Lemma exact_seconds (us : Z) : (inject_Z us / inject_Z 1000000 == us # 1000000)%Q.
Proof. symmetry. apply Qmake_Qdiv. Qed.

(** The value of line 109 is within [(15 + 3 |x|) / 2^52] of the exact
    [15 - x], where [x] is the elapsed time in seconds. *)
Lemma remaining_time_close (us : Z) :
  (Qabs (remaining_time us - (15 - (us # 1000000)))
   <= (15 + 3 * Qabs (us # 1000000)) * (1 # 4503599627370496))%Q.
Proof.
  unfold remaining_time, total_seconds, Double.sub, Double.div_int.
  rewrite fifteen_exact, <- (exact_seconds us).
  set (x := (inject_Z us / inject_Z 1000000)%Q).
  set (ts := Double.round x).
  pose proof (round_close x) as B. fold ts in B.
  pose proof (round_close (15 - ts)) as D.
  apply Qabs_Qle_condition in B. apply Qabs_Qle_condition in D.
  apply Qabs_Qle_condition.
  destruct (Qlt_le_dec x 0) as [Hx|Hx];
    [rewrite (Qabs_neg x) in * by lra|rewrite (Qabs_pos x) in * by lra];
    (destruct (Qlt_le_dec (15 - ts) 0) as [Hd|Hd];
     [rewrite (Qabs_neg (15 - ts)) in * by lra
     |rewrite (Qabs_pos (15 - ts)) in * by lra]);
    split; lra.
Qed.

(** Inside the window the value of line 109 is more than zero. *)
Lemma remaining_time_positive (us : Z) :
  us < timedelta_of_seconds COOLDOWN_SECONDS -> (0 < remaining_time us)%Q.
Proof.
  intros Hus.
  assert (Hx : (us # 1000000 <= 14999999 # 1000000)%Q).
  { unfold Qle. simpl. unfold timedelta_of_seconds, COOLDOWN_SECONDS in Hus. lia. }
  unfold remaining_time, total_seconds, Double.sub, Double.div_int.
  rewrite fifteen_exact. rewrite <- (exact_seconds us) in Hx.
  set (x := (inject_Z us / inject_Z 1000000)%Q) in *.
  set (ts := Double.round x).
  pose proof (round_close x) as B. fold ts in B.
  pose proof (round_close (15 - ts)) as D.
  apply Qabs_Qle_condition in B. apply Qabs_Qle_condition in D.
  destruct (Qlt_le_dec x 0) as [Hx0|Hx0];
    [rewrite (Qabs_neg x) in * by lra|rewrite (Qabs_pos x) in * by lra];
    (destruct (Qlt_le_dec (15 - ts) 0) as [Hd|Hd];
     [rewrite (Qabs_neg (15 - ts)) in * by lra
     |rewrite (Qabs_pos (15 - ts)) in * by lra]);
    lra.
Qed.

(** On every sampled elapsed time the machine's doubles give the value of
    [remaining_time]. *)
Lemma machine_agrees_on_samples : forallb machine_agrees sample_times = true.
Proof. vm_compute. reflexivity. Qed.

Example remaining_after_14_999999_seconds :
  remaining_time 14999999 = (562949953 # 562949953421312)%Q /\
  ~ (remaining_time 14999999 == 1 # 1000000)%Q.
Proof. split; [vm_compute; reflexivity|vm_compute; discriminate]. Qed.

Example remaining_after_5_25_seconds : remaining_time 5250000 = (39 # 4)%Q.
Proof. vm_compute. reflexivity. Qed.

(** ** The inference call *)

Section InferenceFacts.

Lemma tame_Return {A} (a : A) : tame (Return a).
Proof. intros e [=]. Qed.

Lemma tame_bind {A B} (m : result A) (k : A -> result B) :
  tame m -> (forall a, tame (k a)) -> tame (bind m k).
Proof.
  intros Hm Hk e. destruct m as [a|e']; simpl.
  - apply Hk.
  - intros [= ->]. now apply Hm.
Qed.

Lemma tame_if {A} (b : bool) (x y : result A) :
  tame x -> tame y -> tame (if b then x else y).
Proof. now destruct b. Qed.

Lemma tame_py_in key v : tame (py_in key v).
Proof. destruct v; intros e [=]; now subst. Qed.

Lemma tame_getitem v key : tame (getitem v key).
Proof.
  destruct v; simpl; try (intros e [=]; now subst).
  destruct (d !! key); intros e [=]; now subst.
Qed.

Lemma tame_getitem0 v : tame (getitem0 v).
Proof.
  destruct v as [| | | |s|l|d]; simpl; try (intros e [=]; now subst).
  - destruct s; intros e [=]; now subst.
  - destruct l; intros e [=]; now subst.
Qed.

Lemma tame_py_strip v : tame (py_strip v).
Proof. destruct v; intros e [=]; now subst. Qed.

Create HintDb tame.
#[local] Hint Resolve tame_Return tame_py_in tame_getitem tame_getitem0
  tame_py_strip : tame.

(** The checks of lines 54-55 raise nothing that [except Exception] lets
    through. *)
Lemma tame_extract_content body : tame (extract_content body).
Proof.
  unfold extract_content.
  repeat first
    [ apply tame_bind; [auto with tame | intros ?]
    | apply tame_if
    | apply tame_Return ].
Qed.

Example well_formed_answer :
  get_ai_response (Some (lit "http://localhost:1234"))
    (fun _ => Return {| status := 200;
                        json_body := Return (JDict {[ lit "choices" :=
                          JList [JDict {[ lit "message" :=
                            JDict {[ lit "content" := JStr (lit " hi ") ]} ]}] ]});
                        text_body := Return [] |})
    (lit "hello")
  = ([], Return (lit "hi")).
Proof. vm_compute. reflexivity. Qed.

Example choices_is_a_string :
  snd (get_ai_response (Some (lit "http://localhost:1234"))
         (fun _ => Return {| status := 200;
                             json_body := Return (JDict {[ lit "choices" := JStr (lit "abc") ]});
                             text_body := Return [] |})
         (lit "hello"))
  = Return msg_malformed.
Proof. vm_compute. reflexivity. Qed.

Example choices_is_a_number :
  snd (get_ai_response (Some (lit "http://localhost:1234"))
         (fun _ => Return {| status := 200;
                             json_body := Return (JDict {[ lit "choices" := JInt 3 ]});
                             text_body := Return [] |})
         (lit "hello"))
  = Return msg_unexpected.
Proof. vm_compute. reflexivity. Qed.

(** [get_ai_response] returns the text of the exit [classify] names, and
    raises what [classify] raises. *)
Lemma get_ai_response_classify endpoint http prompt :
  snd (get_ai_response endpoint http prompt) =
  match classify endpoint http prompt with
  | Return o => Return (reply_of o)
  | Raise e => Raise e
  end.
Proof.
  unfold get_ai_response, classify.
  destruct (endpoint_missing endpoint); [reflexivity|].
  unfold attempt, classify_attempt, bind.
  destruct (http _) as [response|e]; simpl.
  - destruct (status response =? 200).
    + destruct (json_body response) as [body|e]; simpl.
      * destruct (extract_content body) as [[s|]|e]; simpl; try reflexivity.
        destruct (is_ClientConnectorError e), (is_Exception e); reflexivity.
      * destruct (is_ClientConnectorError e), (is_Exception e); reflexivity.
    + destruct (text_body response) as [t|e]; simpl; [reflexivity|].
      destruct (is_ClientConnectorError e), (is_Exception e); reflexivity.
  - destruct (is_ClientConnectorError e), (is_Exception e); reflexivity.
Qed.

(** What [get_ai_response] raises is not an instance of [Exception]. *)
Lemma get_ai_response_raises endpoint http prompt e :
  snd (get_ai_response endpoint http prompt) = Raise e -> is_Exception e = false.
Proof.
  unfold get_ai_response.
  destruct (endpoint_missing endpoint); [discriminate|].
  destruct (attempt _ _) as [log [reply|e']]; simpl; [discriminate|].
  destruct (is_ClientConnectorError e'); [discriminate|].
  destruct (is_Exception e') eqn:E; [discriminate|].
  now intros [= <-].
Qed.

Lemma classify_attempt_tame http req :
  raises_only_Exception http -> tame (classify_attempt http req).
Proof.
  intros H e. specialize (H req). unfold classify_attempt, bind.
  destruct (http req) as [response|e']; [|now intros [= <-]].
  destruct H as [Hj Ht].
  destruct (status response =? 200).
  - destruct (json_body response) as [body|e'']; [|intros [= <-]; now apply Hj].
    destruct (extract_content body) as [[s|]|e''] eqn:E; try discriminate.
    intros [= <-]. now apply (tame_extract_content body).
  - destruct (text_body response) as [t|e'']; [discriminate|].
    intros [= <-]. now apply Ht.
Qed.

End InferenceFacts.

Lemma failure_message_inj k1 k2 :
  failure_message k1 = failure_message k2 -> k1 = k2.
Proof.
  destruct k1 as [| |c1| |], k2 as [| |c2| |]; simpl; intros H;
    try reflexivity;
    try (apply (f_equal (firstn 10)) in H; vm_compute in H; discriminate).
  unfold msg_upstream in H.
  apply app_inv_head, app_inv_tail, of_int_inj in H. now subst.
Qed.

(** C8: each of the five failure exits of the inference call has its own
    text for the user; two different failures (two different status codes
    included) never give the same text; and the text depends on the kind of
    failure only, not on the exception or on the body of the error
    response, which go to the log. *)
Theorem C8_failure_messages_distinct :
  (forall k1 k2, k1 <> k2 -> failure_message k1 <> failure_message k2) /\
  (forall endpoint http prompt k,
      classify endpoint http prompt = Return (Failure k) ->
      snd (get_ai_response endpoint http prompt) = Return (failure_message k)) /\
  (forall k, k <> UpstreamError 200 ->
      exists endpoint http,
        forall prompt, classify endpoint http prompt = Return (Failure k)) /\
  (forall endpoint1 endpoint2 http1 http2 prompt1 prompt2 k,
      classify endpoint1 http1 prompt1 = Return (Failure k) ->
      classify endpoint2 http2 prompt2 = Return (Failure k) ->
      snd (get_ai_response endpoint1 http1 prompt1) =
      snd (get_ai_response endpoint2 http2 prompt2)).
Proof.
  assert (Hreply : forall endpoint http prompt k,
             classify endpoint http prompt = Return (Failure k) ->
             snd (get_ai_response endpoint http prompt) = Return (failure_message k)).
  { intros endpoint http prompt k H.
    now rewrite get_ai_response_classify, H. }
  split; [|split; [|split]].
  - intros k1 k2 Hne Heq. now apply Hne, failure_message_inj.
  - exact Hreply.
  - intros k Hk.
    pose (local := Some (lit "http://localhost:1234/v1/chat/completions")).
    destruct k as [| |code| |].
    + exists None, (fun _ => Raise ClientConnectorError). reflexivity.
    + exists local, (fun _ => Raise ClientConnectorError). reflexivity.
    + exists local,
        (fun _ => Return {| status := code; json_body := Return JNull;
                            text_body := Return (lit "Internal Server Error") |}).
      intros prompt. unfold classify, classify_attempt. simpl.
      destruct (code =? 200) eqn:E; [|reflexivity].
      apply Z.eqb_eq in E. now subst.
    + exists local,
        (fun _ => Return {| status := 200; json_body := Return (JDict ∅);
                            text_body := Return [] |}).
      reflexivity.
    + exists local, (fun _ => Raise (OtherException (lit "timed out"))). reflexivity.
  - intros e1 e2 h1 h2 p1 p2 k H1 H2.
    now rewrite (Hreply _ _ _ _ H1), (Hreply _ _ _ _ H2).
Qed.

Lemma C8_failure_messages_distinct_witness :
  failure_message MalformedResponse <> failure_message (UpstreamError 503) /\
  snd (get_ai_response (Some (lit "http://localhost:1234")) (fun _ => Raise ClientConnectorError)
         (lit "hello"))
  = Return (failure_message ConnectionRefused).
Proof.
  split.
  - apply (proj1 C8_failure_messages_distinct). discriminate.
  - apply (proj1 (proj2 C8_failure_messages_distinct)). reflexivity.
Defined.

(** C10, as the code has it: whenever everything the HTTP layer raises is
    an instance of [Exception], the inference call returns a string; what
    it lets through is never an instance of [Exception]; and an exception
    outside that hierarchy raised by the request (a cancellation, an
    interrupt) does leave the call. *)
Theorem C10_total_on_Exception endpoint http prompt :
  (raises_only_Exception http ->
   exists log reply, get_ai_response endpoint http prompt = (log, Return reply)) /\
  (forall e, snd (get_ai_response endpoint http prompt) = Raise e ->
             is_Exception e = false) /\
  (forall e, endpoint_missing endpoint = false ->
             http (build_request (default [] endpoint) prompt) = Raise e ->
             is_Exception e = false ->
             snd (get_ai_response endpoint http prompt) = Raise e).
Proof.
  split; [|split; [apply get_ai_response_raises|]].
  - intros Htame.
    destruct (get_ai_response endpoint http prompt) as [log [reply|e]] eqn:E;
      [now exists log, reply|].
    exfalso.
    assert (Hraise : snd (get_ai_response endpoint http prompt) = Raise e)
      by now rewrite E.
    pose proof (get_ai_response_raises _ _ _ _ Hraise) as Hbase.
    rewrite get_ai_response_classify in Hraise.
    unfold classify in Hraise.
    destruct (endpoint_missing endpoint); [discriminate|].
    destruct (classify_attempt _ _) as [o|e'] eqn:Ec; [discriminate|].
    pose proof (classify_attempt_tame _ _ Htame _ Ec) as He'.
    rewrite He' in Hraise.
    destruct (is_ClientConnectorError e'); discriminate.
  - intros e Hconf Hraise Hbase.
    unfold get_ai_response, attempt. rewrite Hconf, Hraise, Hbase.
    now destruct e.
Qed.

Lemma C10_total_on_Exception_witness :
  exists log reply,
    get_ai_response (Some (lit "http://localhost:1234"))
      (fun _ => Raise (OtherException (lit "timed out"))) (lit "hello")
    = (log, Return reply).
Proof.
  apply (proj1 (C10_total_on_Exception _ _ _)).
  intros req. reflexivity.
Defined.

(** C10 as stated fails: a cancellation raised while the request is awaited
    is not caught by [except Exception] and leaves [get_ai_response]. *)
Lemma C10_counterexample :
  ~ (forall endpoint http prompt,
        exists reply, snd (get_ai_response endpoint http prompt) = Return reply).
Proof.
  intros H.
  destruct (H (Some (lit "http://localhost:1234")) (fun _ => Raise CancelledError)
              (lit "hello")) as [reply Hreply].
  vm_compute in Hreply. discriminate.
Qed.

(** ** Admission: lines 86-124 *)

Section AdmissionFacts.

Variable self_id : N.

Lemma cooldown_check_Some st now user_id remaining :
  cooldown_check st now user_id = Some remaining <->
  exists last,
    user_cooldowns st !! user_id = Some last /\
    now - last < timedelta_of_seconds COOLDOWN_SECONDS /\
    remaining = remaining_time (now - last).
Proof.
  unfold cooldown_check. destruct (user_cooldowns st !! user_id) as [last|].
  - destruct (Z.ltb_spec (now - last) (timedelta_of_seconds COOLDOWN_SECONDS)).
    + split.
      * intros [= <-]. now exists last.
      * intros (l & [= <-] & _ & ->). reflexivity.
    + split; [discriminate|]. intros (l & [= <-] & Hlt & _). lia.
  - split; [discriminate|]. now intros (l & [=] & _).
Qed.

Lemma cooldown_check_no_entry st now user_id :
  user_cooldowns st !! user_id = None -> cooldown_check st now user_id = None.
Proof. unfold cooldown_check. now intros ->. Qed.

(** The decision for a message that passes the first three tests. *)
Lemma admission_past_in_flight st now m :
  author_id m <> self_id ->
  triggers m = true ->
  author_id m ∉ users_awaiting_response st ->
  admission self_id st now m =
  match cooldown_check st now (author_id m) with
  | Some remaining => OnCooldown remaining
  | None => match extract_prompt self_id m with
            | [] => EmptyPrompt
            | prompt => Accepted prompt
            end
  end.
Proof.
  intros Hself Htrig Hfree. unfold admission, triggers in *.
  destruct (N.eqb_spec (author_id m) self_id); [contradiction|].
  rewrite <- negb_orb, Htrig. simpl.
  now rewrite bool_decide_eq_false_2.
Qed.

Lemma admission_self st now m : author_id m = self_id -> admission self_id st now m = Ignored.
Proof. intros H. unfold admission. now rewrite H, N.eqb_refl. Qed.

Lemma admission_in_flight st now m :
  author_id m <> self_id ->
  triggers m = true ->
  author_id m ∈ users_awaiting_response st ->
  admission self_id st now m = AlreadyInFlight.
Proof.
  intros Hself Htrig Hbusy. unfold admission, triggers in *.
  destruct (N.eqb_spec (author_id m) self_id); [contradiction|].
  rewrite <- negb_orb, Htrig. simpl.
  now rewrite bool_decide_eq_true_2.
Qed.

Lemma admission_Accepted_inv st now m prompt :
  admission self_id st now m = Accepted prompt ->
  author_id m <> self_id /\ triggers m = true /\
  (author_id m ∉ users_awaiting_response st) /\
  cooldown_check st now (author_id m) = None /\
  prompt = extract_prompt self_id m /\ prompt <> [].
Proof.
  unfold admission, triggers.
  destruct (N.eqb_spec (author_id m) self_id); [discriminate|].
  rewrite <- negb_orb.
  destruct (is_command m || is_mention m); [|discriminate]. simpl.
  destruct (bool_decide_reflect (author_id m ∈ users_awaiting_response st));
    [discriminate|].
  destruct (cooldown_check st now (author_id m)); [discriminate|].
  destruct (extract_prompt self_id m) as [|c p]; [discriminate|].
  intros [= <-]. repeat split; auto; discriminate.
Qed.

Lemma admission_AlreadyInFlight_inv st now m :
  admission self_id st now m = AlreadyInFlight ->
  author_id m ∈ users_awaiting_response st.
Proof.
  unfold admission.
  destruct (author_id m =? self_id)%N; [discriminate|].
  destruct (negb (is_command m) && negb (is_mention m)); [discriminate|].
  destruct (bool_decide_reflect (author_id m ∈ users_awaiting_response st));
    [auto|].
  destruct (cooldown_check st now (author_id m)); [discriminate|].
  destruct (extract_prompt self_id m); discriminate.
Qed.

End AdmissionFacts.

(** C5: the decision of [admission] is the decision of the first rule that
    applies, in the order self-author, trigger, in-flight, cooldown, empty
    prompt.  So a message that triggers the bot from another user who is in
    flight is answered [AlreadyInFlight] whatever the cooldown registry
    holds, such a user never gets [OnCooldown], and a message of the bot
    itself is dropped without any action or change of state. *)
Theorem C5_rules_in_fixed_order self_id :
  (forall st now m, admission self_id st now m = Rules.decide_in_order self_id st now m) /\
  (forall st now m,
      author_id m <> self_id -> triggers m = true ->
      author_id m ∈ users_awaiting_response st ->
      admission self_id st now m = AlreadyInFlight) /\
  (forall st now m remaining,
      author_id m ∈ users_awaiting_response st ->
      admission self_id st now m <> OnCooldown remaining) /\
  (forall endpoint w st m,
      author_id m = self_id ->
      admission self_id st (clock_check w) m = Ignored /\
      on_message self_id endpoint w st m = (st, [], None)).
Proof.
  split; [|split; [|split]].
  - intros st now m.
    unfold admission, Rules.decide_in_order, Rules.self_author, Rules.no_trigger,
      Rules.in_flight, Rules.cooldown, Rules.empty_prompt.
    destruct (author_id m =? self_id)%N; [reflexivity|].
    rewrite <- negb_orb.
    destruct (is_command m || is_mention m); [|reflexivity]. simpl.
    destruct (bool_decide (author_id m ∈ users_awaiting_response st));
      [reflexivity|].
    destruct (cooldown_check st now (author_id m)); [reflexivity|]. simpl.
    destruct (extract_prompt self_id m); reflexivity.
  - intros st now m. apply admission_in_flight.
  - intros st now m remaining Hbusy. unfold admission.
    destruct (author_id m =? self_id)%N; [discriminate|].
    destruct (negb (is_command m) && negb (is_mention m)); [discriminate|].
    rewrite bool_decide_eq_true_2 by assumption. discriminate.
  - intros endpoint w st m Hself.
    unfold on_message. now rewrite (admission_self _ _ _ _ Hself).
Qed.

Lemma C5_rules_in_fixed_order_witness :
  admission 1 {| user_cooldowns := {[ 7%N := 0 ]}; users_awaiting_response := {[ 7%N ]} |}
        5000000 {| author_id := 7; content := lit "!ask again"; is_mention := false |}
  = AlreadyInFlight.
Proof.
  apply (proj1 (proj2 (C5_rules_in_fixed_order 1))).
  - discriminate.
  - reflexivity.
  - simpl. apply elem_of_singleton. reflexivity.
Defined.

(** C6, as the code has it: for a user other than the bot who is not in
    flight and whose cooldown entry is [t1], a triggering message handled at
    [t2] with [t2 - t1] less than the window is answered [OnCooldown] with
    the double that line 109 computes, [15 - (t2 - t1).total_seconds()].
    That value is more than zero and lies within [(15 + 3 |x|) / 2^52] of
    the exact window minus elapsed, [x] being the elapsed seconds, so within
    [2^-46] when [t1 <= t2]; it need not be equal to it.  When [t2 - t1] is
    the window or more the cooldown test lets the message through. *)
Theorem C6_cooldown_window self_id st m t1 t2 :
  user_cooldowns st !! author_id m = Some t1 ->
  (t2 - t1 < timedelta_of_seconds COOLDOWN_SECONDS ->
   author_id m <> self_id -> triggers m = true ->
   author_id m ∉ users_awaiting_response st ->
   admission self_id st t2 m = OnCooldown (remaining_time (t2 - t1)) /\
   (0 < remaining_time (t2 - t1))%Q /\
   (Qabs (remaining_time (t2 - t1)
          - (inject_Z COOLDOWN_SECONDS - ((t2 - t1) # 1000000)))
    <= (15 + 3 * Qabs ((t2 - t1) # 1000000)) * (1 # 2 ^ 52))%Q /\
   (t1 <= t2 ->
    (Qabs (remaining_time (t2 - t1)
           - (inject_Z COOLDOWN_SECONDS - ((t2 - t1) # 1000000)))
     <= 1 # 2 ^ 46)%Q)) /\
  (timedelta_of_seconds COOLDOWN_SECONDS <= t2 - t1 ->
   cooldown_check st t2 (author_id m) = None /\
   forall remaining, admission self_id st t2 m <> OnCooldown remaining).
Proof.
  intros Hlast. split.
  - intros Hlt Hself Htrig Hfree.
    pose proof (remaining_time_close (t2 - t1)) as Hclose.
    split; [|split; [|split]].
    + rewrite (admission_past_in_flight _ _ _ _ Hself Htrig Hfree).
      unfold cooldown_check. rewrite Hlast.
      destruct (Z.ltb_spec (t2 - t1) (timedelta_of_seconds COOLDOWN_SECONDS)); [|lia].
      reflexivity.
    + now apply remaining_time_positive.
    + exact Hclose.
    + intros Hle.
      change (inject_Z COOLDOWN_SECONDS) with 15%Q.
      change (1 # 2 ^ 46)%Q with (1 # 70368744177664)%Q.
      assert (Hx0 : (0 <= (t2 - t1) # 1000000)%Q) by (unfold Qle; simpl; lia).
      assert (Hx1 : ((t2 - t1) # 1000000 <= 15)%Q).
      { unfold Qle. simpl. unfold timedelta_of_seconds, COOLDOWN_SECONDS in Hlt. lia. }
      rewrite (Qabs_pos ((t2 - t1) # 1000000)) in Hclose by exact Hx0.
      lra.
  - intros Hge.
    assert (Hnone : cooldown_check st t2 (author_id m) = None).
    { unfold cooldown_check. rewrite Hlast.
      destruct (Z.ltb_spec (t2 - t1) (timedelta_of_seconds COOLDOWN_SECONDS));
        [lia|reflexivity]. }
    split; [exact Hnone|].
    intros remaining. unfold admission. rewrite Hnone.
    destruct (author_id m =? self_id)%N; [discriminate|].
    destruct (negb (is_command m) && negb (is_mention m)); [discriminate|].
    destruct (bool_decide _); [discriminate|].
    destruct (extract_prompt self_id m); discriminate.
Qed.

Lemma C6_cooldown_window_witness :
  admission 1 {| user_cooldowns := {[ 7%N := 0 ]}; users_awaiting_response := ∅ |}
        14999999 {| author_id := 7; content := lit "!ask again"; is_mention := false |}
  = OnCooldown (562949953 # 562949953421312).
Proof.
  refine (eq_trans (proj1 (proj1 (C6_cooldown_window 1
              {| user_cooldowns := {[ 7%N := 0 ]}; users_awaiting_response := ∅ |}
              {| author_id := 7; content := lit "!ask again"; is_mention := false |}
              0 14999999 (lookup_singleton_eq 7%N 0)) _ _ _ _)) _).
  - reflexivity.
  - discriminate.
  - reflexivity.
  - apply not_elem_of_empty.
  - vm_compute. reflexivity.
Defined.

(** C6 as the specification words it fails twice.  A user inside the window
    who is in flight is answered [AlreadyInFlight], not [OnCooldown]; and
    for a user who is answered [OnCooldown] after 14.999999 seconds the
    value is the double 9.999999992515995e-07, not one microsecond. *)
Lemma C6_counterexample :
  ~ (forall self_id st m t1 t2,
        user_cooldowns st !! author_id m = Some t1 ->
        triggers m = true ->
        t2 - t1 < timedelta_of_seconds COOLDOWN_SECONDS ->
        exists remaining, admission self_id st t2 m = OnCooldown remaining) /\
  ~ (forall self_id st m t1 t2 remaining,
        user_cooldowns st !! author_id m = Some t1 ->
        triggers m = true ->
        t2 - t1 < timedelta_of_seconds COOLDOWN_SECONDS ->
        admission self_id st t2 m = OnCooldown remaining ->
        (remaining == inject_Z COOLDOWN_SECONDS - ((t2 - t1) # 1000000))%Q).
Proof.
  split.
  - intros H.
    destruct (H 1%N
                {| user_cooldowns := {[ 7%N := 0 ]}; users_awaiting_response := {[ 7%N ]} |}
                {| author_id := 7; content := lit "!ask again"; is_mention := false |}
                0 5000000 (lookup_singleton_eq 7%N 0) eq_refl eq_refl)
      as [remaining Hrem].
    vm_compute in Hrem. discriminate Hrem.
  - intros H.
    specialize (H 1%N
                  {| user_cooldowns := {[ 7%N := 0 ]}; users_awaiting_response := ∅ |}
                  {| author_id := 7; content := lit "!ask again"; is_mention := false |}
                  0 14999999 (562949953 # 562949953421312)%Q
                  (lookup_singleton_eq 7%N 0) eq_refl eq_refl).
    assert (Hd : admission 1
                   {| user_cooldowns := {[ 7%N := 0 ]}; users_awaiting_response := ∅ |}
                   14999999
                   {| author_id := 7; content := lit "!ask again"; is_mention := false |}
                 = OnCooldown (562949953 # 562949953421312)) by (vm_compute; reflexivity).
    specialize (H Hd). vm_compute in H. discriminate H.
Qed.

(** C3, as the code has it: for a user other than the bot with no cooldown
    entry who is not in flight, a triggering message whose extracted prompt
    is not empty is admitted, with that prompt. *)
Theorem C3_first_request_accepted self_id st now m :
  user_cooldowns st !! author_id m = None ->
  author_id m ∉ users_awaiting_response st ->
  triggers m = true ->
  author_id m <> self_id ->
  extract_prompt self_id m <> [] ->
  admission self_id st now m = Accepted (extract_prompt self_id m).
Proof.
  intros Hnone Hfree Htrig Hself Hprompt.
  rewrite (admission_past_in_flight _ _ _ _ Hself Htrig Hfree).
  rewrite (cooldown_check_no_entry _ _ _ Hnone).
  now destruct (extract_prompt self_id m).
Qed.

Lemma C3_first_request_accepted_witness :
  admission 1 empty_state 0 {| author_id := 7; content := lit "!ask hello"; is_mention := false |}
  = Accepted (lit "hello").
Proof.
  apply (C3_first_request_accepted 1 empty_state 0
           {| author_id := 7; content := lit "!ask hello"; is_mention := false |}).
  - apply lookup_empty.
  - apply not_elem_of_empty.
  - reflexivity.
  - discriminate.
  - discriminate.
Defined.

(** C3 as stated fails: the first message of a user, being exactly the
    command word, triggers the bot and is rejected for its empty prompt. *)
Lemma C3_counterexample :
  ~ (forall self_id st now m,
        user_cooldowns st !! author_id m = None ->
        author_id m ∉ users_awaiting_response st ->
        triggers m = true ->
        exists prompt, admission self_id st now m = Accepted prompt).
Proof.
  intros H.
  destruct (H 1%N empty_state 0
              {| author_id := 7; content := lit "!ask"; is_mention := false |})
    as [prompt Hacc].
  - apply lookup_empty.
  - apply not_elem_of_empty.
  - reflexivity.
  - vm_compute in Hacc. discriminate.
Qed.

(** ** Prompt extraction: lines 113-124 *)

Lemma is_command_iff m :
  is_command m = true <-> exists rest, content m = lit "!ask" ++ rest.
Proof.
  unfold is_command. split.
  - apply startswith_inv.
  - intros [rest ->]. apply startswith_app.
Qed.

Lemma mention_token_not_command self_id m :
  content m = mention_token self_id -> is_command m = false.
Proof. unfold is_command. now intros ->. Qed.

(** When the content without its marker is blank, so is the prompt the
    code extracts: dropping one more code point keeps a blank string
    blank. *)
Lemma stripped_blank_extract_blank self_id m :
  triggers m = true ->
  stripped_of_marker self_id m = [] -> extract_prompt self_id m = [].
Proof.
  unfold triggers, stripped_of_marker, extract_prompt.
  destruct (is_command m); cbn [orb].
  - intros _ H. apply strip_nil_iff in H. apply strip_nil_iff.
    unfold slice_from in *.
    replace (skipn (length (lit "!ask ")) (content m))
      with (skipn 1 (skipn (length (lit "!ask")) (content m)))
      by (now rewrite skipn_skipn).
    now apply forallb_skipn.
  - now intros ->.
Qed.

(** A message without a prompt never reaches [get_ai_response], whatever
    the state and the world. *)
Lemma no_prompt_no_call self_id endpoint w st m :
  extract_prompt self_id m = [] ->
  asked_prompts (snd (fst (on_message self_id endpoint w st m))) = [].
Proof.
  intros Hempty. unfold on_message, admission. rewrite Hempty.
  destruct (author_id m =? self_id)%N; [reflexivity|].
  destruct (negb (is_command m) && negb (is_mention m)); [reflexivity|].
  destruct (bool_decide _); [reflexivity|].
  destruct (cooldown_check _ _ _); reflexivity.
Qed.

(** C7, as the code has it: a triggering message whose content is blank
    once the trigger marker and the surrounding white space are taken away
    runs to its end without a call of the inference client and is never
    accepted, in every state; it is rejected with [EmptyPrompt] when it
    reaches that test, that is when the sender is not the bot, is not in
    flight and is not on cooldown (otherwise the earlier test gives its own
    rejection).  The content [!ask] alone and the bot's mention token alone
    are two such messages. *)
Theorem C7_empty_prompt_rejected self_id :
  (forall st now m,
      triggers m = true -> stripped_of_marker self_id m = [] ->
      author_id m <> self_id ->
      author_id m ∉ users_awaiting_response st ->
      cooldown_check st now (author_id m) = None ->
      admission self_id st now m = EmptyPrompt) /\
  (forall endpoint w st m,
      triggers m = true -> stripped_of_marker self_id m = [] ->
      asked_prompts (snd (fst (on_message self_id endpoint w st m))) = []) /\
  (forall m, content m = lit "!ask" ->
      triggers m = true /\ stripped_of_marker self_id m = []) /\
  (forall m, content m = mention_token self_id -> is_mention m = true ->
      triggers m = true /\ stripped_of_marker self_id m = []) /\
  (forall st now m prompt,
      triggers m = true -> stripped_of_marker self_id m = [] ->
      admission self_id st now m <> Accepted prompt).
Proof.
  split; [|split; [|split; [|split]]].
  - intros st now m Htrig Hblank Hself Hfree Hcool.
    rewrite (admission_past_in_flight _ _ _ _ Hself Htrig Hfree), Hcool.
    now rewrite (stripped_blank_extract_blank _ _ Htrig Hblank).
  - intros endpoint w st m Htrig Hblank.
    apply no_prompt_no_call. now apply stripped_blank_extract_blank.
  - intros m Hm. unfold triggers, stripped_of_marker, is_command.
    rewrite Hm. split; reflexivity.
  - intros m Hm Hmention. unfold triggers, stripped_of_marker.
    rewrite (mention_token_not_command _ _ Hm), Hmention, Hm, remove_all_self.
    split; reflexivity.
  - intros st now m prompt Htrig Hblank Hacc.
    apply admission_Accepted_inv in Hacc as (_ & _ & _ & _ & -> & Hne).
    apply Hne. now apply stripped_blank_extract_blank.
Qed.

Lemma C7_empty_prompt_rejected_witness :
  admission 1 empty_state 0 {| author_id := 7; content := lit "!ask   "; is_mention := false |}
  = EmptyPrompt /\
  asked_prompts (snd (fst (on_message 1 None
     {| clock_check := 0; notice_delivery := None; typing_enter := None;
        http := fun _ => Raise ClientConnectorError; reply_delivery := None;
        clock_done := 0 |}
     empty_state {| author_id := 7; content := lit "<@1>"; is_mention := true |}))) = [].
Proof.
  split.
  - apply (proj1 (C7_empty_prompt_rejected 1)).
    + reflexivity.
    + reflexivity.
    + discriminate.
    + apply not_elem_of_empty.
    + apply cooldown_check_no_entry, lookup_empty.
  - apply (proj1 (proj2 (C7_empty_prompt_rejected 1))).
    + reflexivity.
    + reflexivity.
Defined.

(** C7 as stated fails: a user on cooldown who sends exactly the command
    word is told to wait for the cooldown, not to provide a prompt. *)
Lemma C7_counterexample :
  ~ (forall self_id st now m,
        triggers m = true -> stripped_of_marker self_id m = [] ->
        admission self_id st now m = EmptyPrompt).
Proof.
  intros H.
  specialize (H 1%N {| user_cooldowns := {[ 7%N := 0 ]}; users_awaiting_response := ∅ |}
                5000000
                {| author_id := 7; content := lit "!ask"; is_mention := false |}
                eq_refl eq_refl).
  vm_compute in H. discriminate.
Qed.

(** C9: the command test accepts every content that begins with the four
    code points of [!ask], with or without a space after them, while the
    prompt is the content from its sixth code point on, stripped.  The
    content [!askhello] from a user who may be admitted gives the prompt
    [ello]. *)
Theorem C9_command_drops_five_code_points self_id :
  (forall m, is_command m = true <-> exists rest, content m = lit "!ask" ++ rest) /\
  (forall m, is_command m = true ->
      extract_prompt self_id m = strip (skipn 5 (content m))) /\
  (forall st now user_id mentioned,
      user_id <> self_id ->
      user_id ∉ users_awaiting_response st ->
      user_cooldowns st !! user_id = None ->
      admission self_id st now
        {| author_id := user_id; content := lit "!askhello"; is_mention := mentioned |}
      = Accepted (lit "ello")).
Proof.
  split; [|split].
  - apply is_command_iff.
  - intros m Hm. unfold extract_prompt. now rewrite Hm.
  - intros st now user_id mentioned Hself Hfree Hnone.
    rewrite admission_past_in_flight; auto.
    simpl author_id. now rewrite (cooldown_check_no_entry _ _ _ Hnone).
Qed.

Lemma C9_command_drops_five_code_points_witness :
  admission 1 empty_state 0
    {| author_id := 7; content := lit "!askhello"; is_mention := false |}
  = Accepted (lit "ello").
Proof.
  apply (proj2 (proj2 (C9_command_drops_five_code_points 1))).
  - discriminate.
  - apply not_elem_of_empty.
  - apply lookup_empty.
Defined.

(** ** The pipeline: lines 126-138 *)

Section PipelineFacts.

Variables (endpoint : option str) (w : World).

Lemma removals_app a b : removals (a ++ b) = removals a ++ removals b.
Proof.
  induction a as [|x a IH]; simpl; [reflexivity|].
  destruct x; simpl; now rewrite ?IH.
Qed.

Lemma removals_map_Log log : removals (map Log log) = [].
Proof. induction log; simpl; auto. Qed.

(** The body of the [try] leaves the set of waiting users alone and
    removes nobody. *)
Lemma try_body_awaiting st user_id prompt :
  users_awaiting_response (fst (fst (try_body endpoint w st user_id prompt)))
  = users_awaiting_response st /\
  removals (snd (fst (try_body endpoint w st user_id prompt))) = [].
Proof.
  unfold try_body.
  destruct (typing_enter w); [now split|].
  destruct (get_ai_response _ _ _) as [log [reply|e]];
    [destruct (reply_delivery w)|]; simpl;
    rewrite ?removals_app, ?removals_map_Log; now split.
Qed.

(** The cooldown entry after the body: set when a reply was delivered,
    whatever the reply says, and left alone otherwise. *)
Lemma try_body_cooldown st user_id prompt :
  user_cooldowns (fst (fst (try_body endpoint w st user_id prompt))) =
  match typing_enter w, snd (get_ai_response endpoint (http w) prompt), reply_delivery w with
  | None, Return _, None => <[user_id := clock_done w]> (user_cooldowns st)
  | _, _, _ => user_cooldowns st
  end.
Proof.
  unfold try_body.
  destruct (typing_enter w); [reflexivity|].
  destruct (get_ai_response _ _ _) as [log [reply|e]]; simpl; [|reflexivity].
  destruct (reply_delivery w); reflexivity.
Qed.

(** The [finally] clause when the user is in the set: one removal, and the
    exception of the body, if any, goes on. *)
Lemma finally_release_member user_id st actions exc :
  user_id ∈ users_awaiting_response st ->
  finally_release user_id (st, actions, exc) =
  (set_awaiting st (users_awaiting_response st ∖ {[user_id]}),
   actions ++ [AwaitingRemove user_id], exc).
Proof.
  intros Hin. unfold finally_release, set_remove.
  now rewrite bool_decide_eq_true_2.
Qed.

Lemma pipeline_unfold st user_id prompt :
  pipeline endpoint w st user_id prompt =
  let st1 := set_awaiting st ({[user_id]} ∪ users_awaiting_response st) in
  let r := try_body endpoint w st1 user_id prompt in
  (set_awaiting (fst (fst r)) (users_awaiting_response (fst (fst r)) ∖ {[user_id]}),
   (AwaitingAdd user_id :: snd (fst r)) ++ [AwaitingRemove user_id],
   snd r).
Proof.
  unfold pipeline. cbv zeta.
  pose proof (try_body_awaiting
                (set_awaiting st ({[user_id]} ∪ users_awaiting_response st))
                user_id prompt) as [Haw _].
  destruct (try_body _ _ _ _ _) as [[st2 actions] exc].
  cbn [fst snd] in *.
  apply finally_release_member. rewrite Haw. simpl. set_solver.
Qed.

(** The set of waiting users and the removals of a whole pipeline run. *)
Lemma pipeline_awaiting st user_id prompt :
  users_awaiting_response (fst (fst (pipeline endpoint w st user_id prompt)))
  = users_awaiting_response st ∖ {[user_id]} /\
  removals (snd (fst (pipeline endpoint w st user_id prompt))) = [user_id].
Proof.
  rewrite pipeline_unfold. cbv zeta.
  pose proof (try_body_awaiting
                (set_awaiting st ({[user_id]} ∪ users_awaiting_response st))
                user_id prompt) as [Haw Hrem].
  destruct (try_body _ _ _ _ _) as [[st2 actions] exc]. simpl in *.
  rewrite Haw, removals_app, Hrem. split; [set_solver|reflexivity].
Qed.

Lemma pipeline_cooldown st user_id prompt :
  user_cooldowns (fst (fst (pipeline endpoint w st user_id prompt))) =
  match typing_enter w, snd (get_ai_response endpoint (http w) prompt), reply_delivery w with
  | None, Return _, None => <[user_id := clock_done w]> (user_cooldowns st)
  | _, _, _ => user_cooldowns st
  end.
Proof.
  rewrite pipeline_unfold. cbv zeta. simpl.
  now rewrite try_body_cooldown.
Qed.

End PipelineFacts.

(** The scenario of the specification: a request answered at time 0, a
    second one five seconds later, a third one after sixteen seconds. *)
Example cooldown_scenario :
  let answering :=
    {| clock_check := 0; notice_delivery := None; typing_enter := None;
       http := fun _ =>
         Return {| status := 200;
                   json_body := Return (JDict {[ lit "choices" :=
                     JList [JDict {[ lit "message" :=
                       JDict {[ lit "content" := JStr (lit "hi") ]} ]}] ]});
                   text_body := Return [] |};
       reply_delivery := None; clock_done := 0 |} in
  let ask (s : string) :=
    {| author_id := 7; content := lit s; is_mention := false |} in
  let '(st1, actions, exc) :=
    on_message 1 (Some (lit "http://localhost:1234")) answering empty_state
               (ask "!ask hello"%string) in
  actions = [AwaitingAdd 7; Typing; Ask (lit "hello"); SendReply (lit "hi");
             CooldownSet 7 0; AwaitingRemove 7] /\
  exc = None /\
  admission 1 st1 5000000 (ask "!ask again"%string) = OnCooldown 10 /\
  admission 1 st1 16000000 (ask "!ask again"%string) = Accepted (lit "again").
Proof. vm_compute. repeat split. Qed.

(** C4: an admitted request removes its user from
    [users_awaiting_response] exactly once, whatever the world does during
    the run: the typing indicator failing, the inference call returning any
    text or letting an exception through, the reply being delivered or
    raising.  The user is put into the set on line 127 and is still a member
    when the body of the [try] is over, so the [remove] of the [finally]
    clause finds the user, does not raise, and takes the user out; the run
    is the body followed by that one removal.  After the run the user is not
    in the set, membership of the other users is as before, and no later
    message of that user is answered [AlreadyInFlight] in the resulting
    state.  The pipeline takes the user out from whatever state it is started
    in, also one in which the user already was a member. *)
Theorem C4_released_on_every_exit self_id endpoint w st m prompt :
  admission self_id st (clock_check w) m = Accepted prompt ->
  let user_id := author_id m in
  let st1 := set_awaiting st ({[user_id]} ∪ users_awaiting_response st) in
  let body := try_body endpoint w st1 user_id prompt in
  let st2 := fst (fst body) in
  let '(st', actions, exc) := on_message self_id endpoint w st m in
  (user_id ∈ users_awaiting_response st1) /\
  (user_id ∈ users_awaiting_response st2) /\
  set_remove user_id (users_awaiting_response st2)
  = Return (users_awaiting_response st2 ∖ {[user_id]}) /\
  st' = set_awaiting st2 (users_awaiting_response st2 ∖ {[user_id]}) /\
  actions = (AwaitingAdd user_id :: snd (fst body)) ++ [AwaitingRemove user_id] /\
  exc = snd body /\
  removals actions = [user_id] /\
  (user_id ∉ users_awaiting_response st') /\
  users_awaiting_response st' = users_awaiting_response st /\
  (forall now' m', author_id m' = user_id ->
                   admission self_id st' now' m' <> AlreadyInFlight) /\
  (forall st0,
      users_awaiting_response (fst (fst (pipeline endpoint w st0 user_id prompt)))
      = users_awaiting_response st0 ∖ {[user_id]} /\
      removals (snd (fst (pipeline endpoint w st0 user_id prompt))) = [user_id]).
Proof.
  intros Hacc. cbv zeta. unfold on_message. rewrite Hacc.
  apply admission_Accepted_inv in Hacc as (_ & _ & Hfree & _).
  pose proof (pipeline_awaiting endpoint w st (author_id m) prompt) as [Haw Hrem].
  pose proof (pipeline_unfold endpoint w st (author_id m) prompt) as Hrun.
  cbv zeta in Hrun.
  pose proof (try_body_awaiting endpoint w
                (set_awaiting st ({[author_id m]} ∪ users_awaiting_response st))
                (author_id m) prompt) as [Hbody _].
  destruct (pipeline _ _ _ _ _) as [[st' actions] exc]. cbn [fst snd] in *.
  injection Hrun as Hst' Hactions Hexc.
  assert (Hin1 : author_id m ∈ users_awaiting_response
                   (set_awaiting st ({[author_id m]} ∪ users_awaiting_response st)))
    by (simpl; set_solver).
  assert (Hin2 : author_id m ∈ users_awaiting_response
                   (fst (fst (try_body endpoint w
                      (set_awaiting st ({[author_id m]} ∪ users_awaiting_response st))
                      (author_id m) prompt))))
    by now rewrite Hbody.
  assert (Hout : author_id m ∉ users_awaiting_response st') by (rewrite Haw; set_solver).
  split; [exact Hin1|]. split; [exact Hin2|].
  split; [unfold set_remove; now rewrite bool_decide_eq_true_2|].
  split; [exact Hst'|]. split; [exact Hactions|]. split; [exact Hexc|].
  split; [exact Hrem|]. split; [exact Hout|].
  split; [rewrite Haw; set_solver|].
  split.
  - intros now' m' Hsame Hbusy.
    apply admission_AlreadyInFlight_inv in Hbusy. now rewrite Hsame in Hbusy.
  - intros st0. apply pipeline_awaiting.
Qed.

Lemma C4_released_on_every_exit_witness :
  let '(st', actions, exc) :=
    on_message 1 (Some (lit "http://localhost:1234"))
      {| clock_check := 0; notice_delivery := None; typing_enter := None;
         http := fun _ => Raise ClientConnectorError;
         reply_delivery := Some HTTPException; clock_done := 5 |}
      empty_state
      {| author_id := 7; content := lit "!ask hello"; is_mention := false |} in
  removals actions = [7%N] /\
  (7%N ∉ users_awaiting_response st') /\
  exc = Some HTTPException.
Proof.
  pose proof (C4_released_on_every_exit 1 (Some (lit "http://localhost:1234"))
           {| clock_check := 0; notice_delivery := None; typing_enter := None;
              http := fun _ => Raise ClientConnectorError;
              reply_delivery := Some HTTPException; clock_done := 5 |}
           empty_state
           {| author_id := 7; content := lit "!ask hello"; is_mention := false |}
           (lit "hello") eq_refl) as H.
  cbv zeta in H.
  destruct (on_message _ _ _ _ _) as [[st' actions] exc].
  destruct H as (_ & _ & _ & _ & _ & Hexc & Hrem & Hout & _).
  split; [exact Hrem|]. split; [exact Hout|].
  rewrite Hexc. reflexivity.
Defined.

(** C1, what the code does when the inference call fails: the failure comes
    back as an ordinary string, the handler delivers it, and with the
    delivery done it records the time of completion in [user_cooldowns]
    for that user, as for a generated answer. *)
Theorem C1_failed_inference_sets_cooldown self_id endpoint w st m prompt k :
  admission self_id st (clock_check w) m = Accepted prompt ->
  classify endpoint (http w) prompt = Return (Failure k) ->
  typing_enter w = None ->
  reply_delivery w = None ->
  let '(st', actions, exc) := on_message self_id endpoint w st m in
  user_cooldowns st' !! author_id m = Some (clock_done w) /\
  In (SendReply (failure_message k)) actions /\
  exc = None.
Proof.
  intros Hacc Hfail Htyping Hsend. unfold on_message. rewrite Hacc.
  pose proof (get_ai_response_classify endpoint (http w) prompt) as Hreply.
  rewrite Hfail in Hreply.
  rewrite pipeline_unfold. cbv zeta. unfold try_body. rewrite Htyping.
  destruct (get_ai_response _ _ _) as [log [reply|e]]; simpl in Hreply;
    [|discriminate].
  injection Hreply as ->. rewrite Hsend. cbn [fst snd].
  split; [|split].
  - simpl. apply lookup_insert_eq.
  - apply in_or_app. left. right. right. right.
    apply in_or_app. right. left. reflexivity.
  - reflexivity.
Qed.

Lemma C1_failed_inference_sets_cooldown_witness :
  let '(st', actions, exc) :=
    on_message 1 (Some (lit "http://localhost:1234"))
      {| clock_check := 0; notice_delivery := None; typing_enter := None;
         http := fun _ => Raise ClientConnectorError;
         reply_delivery := None; clock_done := 5 |}
      empty_state
      {| author_id := 7; content := lit "!ask hello"; is_mention := false |} in
  user_cooldowns empty_state !! 7%N = None /\
  user_cooldowns st' !! 7%N = Some 5.
Proof.
  pose proof (C1_failed_inference_sets_cooldown 1 (Some (lit "http://localhost:1234"))
           {| clock_check := 0; notice_delivery := None; typing_enter := None;
              http := fun _ => Raise ClientConnectorError;
              reply_delivery := None; clock_done := 5 |}
           empty_state
           {| author_id := 7; content := lit "!ask hello"; is_mention := false |}
           (lit "hello") ConnectionRefused eq_refl eq_refl eq_refl eq_refl) as H.
  destruct (on_message _ _ _ _ _) as [[st' actions] exc].
  split; [apply lookup_empty|apply H].
Defined.

(** ** Start-up *)

(** C2, as the code has it: when the token or the endpoint is absent the
    script prints a line that begins with [FATAL ERROR] and does not run
    the bot; it then reaches its end, and the exit status is 0. *)
Theorem C2_missing_configuration_refused token endpoint :
  token = None \/ endpoint = None ->
  exists printed,
    main token endpoint = Refused printed 0 /\
    startswith (lit "FATAL ERROR") printed = true.
Proof.
  unfold main. intros [-> | ->].
  - eexists. split; reflexivity.
  - destruct token; eexists; split; reflexivity.
Qed.

Lemma C2_missing_configuration_refused_witness :
  exists printed,
    main (Some (lit "token")) None = Refused printed 0 /\
    startswith (lit "FATAL ERROR") printed = true.
Proof.
  apply C2_missing_configuration_refused. right. reflexivity.
Defined.

(** C2 as stated fails: without a token the script ends with status 0. *)
Lemma C2_counterexample :
  ~ (forall token endpoint,
        token = None \/ endpoint = None ->
        exists printed exit_status,
          main token endpoint = Refused printed exit_status /\ exit_status <> 0).
Proof.
  intros H.
  destruct (H None (Some (lit "http://localhost:1234"))) as (printed & code & Hmain & Hcode).
  - now left.
  - injection Hmain as _ <-. now apply Hcode.
Qed.

(** ** Interleaved handlers *)

Section LoopFacts.

Import Loop.

Variables (self_id : N) (endpoint : option str).

Lemma users_at_stage before t s after :
  map user (before ++ at_stage t s :: after) = map user (before ++ t :: after).
Proof. now rewrite !map_app. Qed.

Lemma consistent_at_stage st st' before t s after :
  users_awaiting_response st' = users_awaiting_response st ->
  consistent {| shared := st; tasks := before ++ t :: after |} ->
  consistent {| shared := st'; tasks := before ++ at_stage t s :: after |}.
Proof.
  unfold consistent. simpl. intros -> H. now rewrite users_at_stage.
Qed.

Lemma initial_consistent : consistent initial.
Proof.
  split; simpl; [constructor|].
  intros u. split; intros H.
  - now apply not_elem_of_empty in H.
  - now apply not_elem_of_nil in H.
Qed.

Lemma NoDup_middle (l k : list N) (x : N) :
  NoDup (l ++ x :: k) -> NoDup (l ++ k) /\ x ∉ l ++ k.
Proof.
  rewrite !NoDup_app, NoDup_cons. intros (Hl & Hlk & Hx & Hk).
  split; [split; [exact Hl|split; [|exact Hk]]|].
  - intros y Hy Hyk. apply (Hlk y Hy). apply elem_of_cons. now right.
  - intros Hin. apply elem_of_app in Hin as [Hin|Hin]; [|contradiction].
    apply (Hlk x Hin). apply elem_of_cons. now left.
Qed.

(** In a consistent system the [finally] clause finds its user in the set,
    and no other handler serves that user. *)
Lemma leave_finds_user st before t after :
  consistent {| shared := st; tasks := before ++ t :: after |} ->
  set_remove (user t) (users_awaiting_response st)
  = Return (users_awaiting_response st ∖ {[user t]}) /\
  user t ∉ map user (before ++ after).
Proof.
  intros [Hnodup Hiff]. simpl in *. split.
  - unfold set_remove. rewrite bool_decide_eq_true_2; [reflexivity|].
    apply Hiff. rewrite map_app. apply elem_of_app. right. apply elem_of_cons. now left.
  - rewrite map_app in *. simpl in Hnodup.
    now apply NoDup_middle in Hnodup.
Qed.

Lemma step_consistent sys sys' :
  consistent sys -> step self_id endpoint sys sys' -> consistent sys'.
Proof.
  intros Hc Hstep. destruct Hstep.
  - destruct (admission self_id st now m) as [| | | |p] eqn:Hacc; try exact Hc.
    apply admission_Accepted_inv in Hacc as (_ & _ & Hfree & _).
    destruct Hc as [Hnodup Hiff]. simpl in *. split; simpl.
    + apply NoDup_cons. split; [|exact Hnodup]. intros Hin. now apply Hfree, Hiff.
    + intros u. rewrite elem_of_union, elem_of_singleton, elem_of_cons, Hiff.
      reflexivity.
  - now apply (consistent_at_stage st).
  - now apply (consistent_at_stage st).
  - now apply (consistent_at_stage st).
  - now apply (consistent_at_stage st).
  - destruct (leave_finds_user _ _ _ _ Hc) as [-> Hfresh].
    destruct Hc as [Hnodup Hiff]. simpl in *. split; simpl.
    + rewrite map_app in *. simpl in Hnodup.
      now apply NoDup_middle in Hnodup.
    + intros u. rewrite elem_of_difference, elem_of_singleton, Hiff.
      rewrite !map_app in *. simpl. rewrite !elem_of_app, elem_of_cons.
      rewrite elem_of_app in Hfresh.
      split.
      * intros [[Hu|[Hu|Hu]] Hne]; auto. contradiction.
      * intros Hu. split; [tauto|].
        intros ->. now apply Hfresh.
Qed.

(** Every state the event loop can reach is consistent: no user is served
    by two handlers at once, and the set holds the served users. *)
Theorem reachable_consistent sys :
  rtc (step self_id endpoint) initial sys -> consistent sys.
Proof.
  revert sys. apply (rtc_ind_r consistent initial).
  - apply initial_consistent.
  - intros y z _ Hstep IH. now apply (step_consistent y).
Qed.

(** X20: in a reachable state, a handler at its [finally] clause finds
    its user in [users_awaiting_response], whatever the other handlers did
    in the meantime: no other handler serves that user, the [remove] returns
    without a [KeyError], the step takes exactly that user out and leaves the
    cooldown registry untouched, and a message of that user decided in the
    state left behind is not answered [AlreadyInFlight]. *)
Theorem leave_releases st before t after exc :
  rtc (step self_id endpoint) initial
      {| shared := st; tasks := before ++ t :: after |} ->
  stage t = Leaving exc ->
  (user t ∈ users_awaiting_response st) /\
  (user t ∉ map user (before ++ after)) /\
  set_remove (user t) (users_awaiting_response st)
  = Return (users_awaiting_response st ∖ {[user t]}) /\
  exists st',
    step self_id endpoint {| shared := st; tasks := before ++ t :: after |}
                          {| shared := st'; tasks := before ++ after |} /\
    users_awaiting_response st' = users_awaiting_response st ∖ {[user t]} /\
    user_cooldowns st' = user_cooldowns st /\
    forall now m, author_id m = user t ->
                  admission self_id st' now m <> AlreadyInFlight.
Proof.
  intros Hreach Hstage.
  pose proof (reachable_consistent _ Hreach) as Hc.
  destruct (leave_finds_user _ _ _ _ Hc) as [Hremove Hfresh].
  split; [|split; [exact Hfresh|split; [exact Hremove|]]].
  - destruct Hc as [_ Hiff]. apply Hiff. simpl. rewrite map_app.
    apply elem_of_app. right. apply elem_of_cons. now left.
  - exists (set_awaiting st (users_awaiting_response st ∖ {[user t]})).
    split; [|split; [|split]]; try reflexivity.
    + pose proof (step_leave self_id endpoint st before t after exc Hstage) as Hstep.
      now rewrite Hremove in Hstep.
    + intros now m Hm Hbusy. apply admission_AlreadyInFlight_inv in Hbusy.
      simpl in Hbusy. rewrite Hm in Hbusy. set_solver.
Qed.

(** X21: the run of [on_message] without interleaving is one schedule of
    the event loop: from any state and any set of suspended handlers, the
    event loop can reach the state [on_message] computes, with the same
    handlers suspended. *)
Lemma on_message_is_a_schedule w st ts m :
  rtc (step self_id endpoint)
      {| shared := st; tasks := ts |}
      {| shared := fst (fst (on_message self_id endpoint w st m)); tasks := ts |}.
Proof.
  unfold on_message.
  destruct (admission self_id st (clock_check w) m) as [| | | |p] eqn:Hacc;
    try apply rtc_refl.
  eapply rtc_l.
  { apply (step_message self_id endpoint st ts (clock_check w) m). }
  rewrite Hacc, pipeline_unfold. cbv zeta.
  set (st1 := set_awaiting st _).
  set (t := {| user := author_id m; prompt := p; stage := Inferring |}).
  assert (Hleave : forall st2 exc,
             users_awaiting_response st2 = users_awaiting_response st1 ->
             rtc (step self_id endpoint)
               {| shared := st2; tasks := [] ++ at_stage t (Leaving exc) :: ts |}
               {| shared := set_awaiting st2 (users_awaiting_response st2 ∖ {[author_id m]});
                  tasks := ts |}).
  { intros st2 exc Haw. apply rtc_once.
    pose proof (step_leave self_id endpoint st2 [] (at_stage t (Leaving exc)) ts exc
                  eq_refl) as Hstep.
    simpl in Hstep. unfold set_remove in Hstep.
    rewrite bool_decide_eq_true_2 in Hstep; [exact Hstep|].
    rewrite Haw. subst st1. simpl. set_solver. }
  unfold try_body.
  destruct (typing_enter w) as [e|].
  - eapply rtc_l; [apply (step_typing_raises self_id endpoint st1 [] t ts e eq_refl)|].
    now apply Hleave.
  - eapply rtc_l;
      [apply (step_inference_done self_id endpoint st1 [] t ts (http w) eq_refl)|].
    simpl prompt.
    destruct (get_ai_response endpoint (http w) p) as [log [reply|e]]; cbn [fst snd].
    + destruct (reply_delivery w) as [e|]; cbn [fst snd].
      * eapply rtc_l;
          [apply (step_reply_raises self_id endpoint st1 [] (at_stage t (Replying reply))
                    ts reply e eq_refl)|].
        now apply Hleave.
      * eapply rtc_l;
          [apply (step_reply_sent self_id endpoint st1 [] (at_stage t (Replying reply))
                    ts reply (clock_done w) eq_refl)|].
        now apply (Hleave (set_cooldown st1 (author_id m) (clock_done w)) None).
    + now apply Hleave.
Qed.

End LoopFacts.

(** * Further properties *)

(** ** More on strings *)

Section MoreStrFacts.

Lemma lstrip_idem (s : str) : lstrip (lstrip s) = lstrip s.
Proof.
  induction s as [|c s IH]; simpl; [reflexivity|].
  destruct (isspace c) eqn:E; [exact IH|]. simpl. now rewrite E.
Qed.

Lemma lstrip_snoc (s : str) (c : N) :
  isspace c = false -> lstrip (s ++ [c]) = lstrip s ++ [c].
Proof.
  intros Hc. induction s as [|a s IH]; simpl.
  - now rewrite Hc.
  - destruct (isspace a); [exact IH|reflexivity].
Qed.

Lemma rstrip_cons (c : N) (s : str) :
  isspace c = false -> rstrip (c :: s) = c :: rstrip s.
Proof.
  intros Hc. unfold rstrip. simpl.
  now rewrite (lstrip_snoc _ _ Hc), rev_app_distr.
Qed.

Lemma rstrip_idem (s : str) : rstrip (rstrip s) = rstrip s.
Proof. unfold rstrip. now rewrite rev_involutive, lstrip_idem. Qed.

Lemma lstrip_head (s : str) :
  lstrip s = [] \/ exists c rest, lstrip s = c :: rest /\ isspace c = false.
Proof.
  induction s as [|c s IH]; simpl; [now left|].
  destruct (isspace c) eqn:E; [exact IH|]. right. now exists c, s.
Qed.

(** Stripping twice is stripping once. *)
Lemma strip_idem (s : str) : strip (strip s) = strip s.
Proof.
  unfold strip.
  destruct (lstrip_head s) as [->|(c & rest & -> & Hc)]; [reflexivity|].
  rewrite (rstrip_cons _ _ Hc). simpl. rewrite Hc.
  now rewrite (rstrip_cons _ _ Hc), rstrip_idem.
Qed.

Lemma remove_from_absent (old s : str) :
  contains old s = false -> remove_from old O s = s.
Proof.
  induction s as [|c s IH]; simpl; [reflexivity|].
  intros H. apply orb_false_elim in H as [Hhere Hrest].
  change (match old with
          | [] => true
          | a :: p' => (a =? c)%N && startswith p' s
          end) with (startswith old (c :: s)).
  rewrite Hhere. now rewrite IH.
Qed.

(** [s.replace(old, '')] gives [s] back when [old] does not occur. *)
Lemma remove_all_absent (old s : str) :
  contains old s = false -> remove_all old s = s.
Proof. apply remove_from_absent. Qed.

End MoreStrFacts.

(** ** More on the inference call *)

Section MoreInferenceFacts.

Lemma in_dict_true (d : gmap str json) key x :
  d !! key = Some x -> bool_decide (is_Some (d !! key)) = true.
Proof. intros ->. reflexivity. Qed.

Lemma bool_decide_is_Some {A} (mx : option A) :
  bool_decide (is_Some mx) = match mx with Some _ => true | None => false end.
Proof. now destruct mx. Qed.

(** Case analysis along the tests of lines 54-55, innermost scrutinee
    first. *)
Ltac walk_checks :=
  unfold answer_of, extract_content, py_in, getitem, getitem0, py_strip, bind in *;
  repeat first
    [ discriminate
    | progress cbn [negb truthy] in *
    | rewrite bool_decide_is_Some in *
    | match goal with
      | H : context [match ?x with _ => _ end] |- _ =>
          lazymatch x with
          | context [match _ with _ => _ end] => fail
          | _ => destruct x
          end
      end ].

Lemma answer_extracted body s :
  answer_of body = Some s -> extract_content body = Return (Some s).
Proof.
  unfold answer_of.
  destruct body as [| | | | |?|d]; try discriminate.
  destruct (d !! lit "choices") as [[| | | | |[|[| | | | |?|first] rest]|?]|] eqn:Hc;
    try discriminate.
  destruct (first !! lit "message") as [[| | | | |?|message]|] eqn:Hm; try discriminate.
  destruct (message !! lit "content") as [[| | | |generated|?|?]|] eqn:Hg; try discriminate.
  intros [= <-].
  unfold extract_content, py_in, getitem, getitem0, py_strip, bind.
  rewrite (in_dict_true _ _ _ Hc), Hc. cbn [negb truthy].
  rewrite (in_dict_true _ _ _ Hm), Hm. cbn [negb].
  rewrite (in_dict_true _ _ _ Hg), Hg. reflexivity.
Qed.

Lemma extracted_answer body s :
  extract_content body = Return (Some s) -> answer_of body = Some s.
Proof.
  destruct (answer_of body) as [s'|] eqn:Ha.
  - apply answer_extracted in Ha. rewrite Ha. now intros [= ->].
  - intros He. exfalso. walk_checks.
Qed.

(** What the checks raise is caught by the second [except] clause. *)
Lemma extract_content_raises body e :
  extract_content body = Raise e ->
  is_ClientConnectorError e = false /\ is_Exception e = true.
Proof.
  intros He. split; [|now apply (tame_extract_content body)].
  walk_checks;
    match goal with H : Raise _ = Raise e |- _ => now injection H as <- end.
Qed.

(** X1: the checks of lines 54-55 hand out a text exactly for a body that
    is an object whose [choices] is a list beginning with an object whose
    [message] is an object whose [content] is a string; the text is that
    string, stripped.  Any other body is reported or raises. *)
Theorem text_extracted_iff_expected_shape body s :
  extract_content body = Return (Some s) <-> answer_of body = Some s.
Proof. split; [apply extracted_answer | apply answer_extracted]. Qed.

(** X2: for a response with status 200 whose JSON could be read, the call
    returns the stripped content and logs nothing when the body has the
    expected shape; for every other body the user gets one of two fixed
    texts, never a part of the body. *)
Theorem body_answered_or_apology endpoint http prompt response body :
  endpoint_missing endpoint = false ->
  http (build_request (default [] endpoint) prompt) = Return response ->
  status response = 200 ->
  json_body response = Return body ->
  match answer_of body with
  | Some generated =>
      get_ai_response endpoint http prompt = ([], Return generated)
  | None =>
      get_ai_response endpoint http prompt
      = ([LogUnexpectedFormat body], Return msg_malformed) \/
      exists e, get_ai_response endpoint http prompt
                = ([LogUnexpected e], Return msg_unexpected)
  end.
Proof.
  intros Hconf Hhttp Hstatus Hjson.
  unfold get_ai_response, attempt. rewrite Hconf, Hhttp, Hstatus, Hjson. simpl.
  destruct (answer_of body) as [generated|] eqn:Ha.
  - now rewrite (answer_extracted _ _ Ha).
  - destruct (extract_content body) as [[s|]|e] eqn:He.
    + apply extracted_answer in He. congruence.
    + now left.
    + right. exists e.
      destruct (extract_content_raises _ _ He) as [-> ->]. reflexivity.
Qed.

Lemma body_answered_or_apology_witness :
  get_ai_response (Some (lit "http://localhost:1234"))
    (fun _ => Return {| status := 200;
                        json_body := Return (JDict {[ lit "choices" := JList [] ]});
                        text_body := Return [] |})
    (lit "hello")
  = ([LogUnexpectedFormat (JDict {[ lit "choices" := JList [] ]})], Return msg_malformed) \/
  exists e,
    get_ai_response (Some (lit "http://localhost:1234"))
      (fun _ => Return {| status := 200;
                          json_body := Return (JDict {[ lit "choices" := JList [] ]});
                          text_body := Return [] |})
      (lit "hello")
    = ([LogUnexpected e], Return msg_unexpected).
Proof.
  pose proof (body_answered_or_apology (Some (lit "http://localhost:1234"))
           (fun _ => Return {| status := 200;
                               json_body := Return (JDict {[ lit "choices" := JList [] ]});
                               text_body := Return [] |})
           (lit "hello") _ (JDict {[ lit "choices" := JList [] ]})
           eq_refl eq_refl eq_refl eq_refl) as H.
  assert (Ha : answer_of (JDict {[ lit "choices" := JList [] ]}) = None)
    by (vm_compute; reflexivity).
  rewrite Ha in H. exact H.
Defined.

(** X3: a call that returns a generated text, that finds no endpoint
    configured, or that lets an exception through prints nothing; every
    other failure prints exactly one diagnostic line. *)
Theorem one_log_line_per_failure endpoint http prompt :
  length (fst (get_ai_response endpoint http prompt)) =
  match classify endpoint http prompt with
  | Return (Text _) => 0
  | Return (Failure EndpointNotConfigured) => 0
  | Return (Failure _) => 1
  | Raise _ => 0
  end%nat.
Proof.
  unfold get_ai_response, classify.
  destruct (endpoint_missing endpoint); [reflexivity|].
  unfold attempt, classify_attempt, bind.
  destruct (http _) as [response|e]; simpl.
  - destruct (status response =? 200).
    + destruct (json_body response) as [body|e]; simpl.
      * destruct (extract_content body) as [[s|]|e]; simpl; try reflexivity.
        destruct (is_ClientConnectorError e), (is_Exception e); reflexivity.
      * destruct (is_ClientConnectorError e), (is_Exception e); reflexivity.
    + destruct (text_body response) as [t|e]; simpl; [reflexivity|].
      destruct (is_ClientConnectorError e), (is_Exception e); reflexivity.
  - destruct (is_ClientConnectorError e), (is_Exception e); reflexivity.
Qed.

End MoreInferenceFacts.

(** ** More on admission *)

Section MoreAdmissionFacts.

Variable self_id : N.

Lemma cooldown_check_None st now user_id :
  cooldown_check st now user_id = None <->
  forall last, user_cooldowns st !! user_id = Some last ->
               timedelta_of_seconds COOLDOWN_SECONDS <= now - last.
Proof.
  unfold cooldown_check. destruct (user_cooldowns st !! user_id) as [last|].
  - destruct (Z.ltb_spec (now - last) (timedelta_of_seconds COOLDOWN_SECONDS)).
    + split; [discriminate|]. intros H'. specialize (H' last eq_refl). lia.
    + split; [|reflexivity]. now intros _ l [= <-].
  - split; [|reflexivity]. intros _ l. discriminate.
Qed.

Lemma extract_prompt_stripped m :
  strip (extract_prompt self_id m) = extract_prompt self_id m.
Proof.
  unfold extract_prompt.
  destruct (is_command m); [apply strip_idem|].
  destruct (is_mention m); [apply strip_idem|reflexivity].
Qed.

(** X4: a message is accepted exactly when its author is not the bot, it
    triggers the bot, the author is not waiting for an answer, the
    author's cooldown entry, if there is one, is at least the window old,
    and the extracted prompt is not empty; the prompt handed on is the
    extracted one. *)
Theorem accepted_iff st now m prompt :
  admission self_id st now m = Accepted prompt <->
  author_id m <> self_id /\ triggers m = true /\
  (author_id m ∉ users_awaiting_response st) /\
  (forall last, user_cooldowns st !! author_id m = Some last ->
                timedelta_of_seconds COOLDOWN_SECONDS <= now - last) /\
  prompt = extract_prompt self_id m /\ prompt <> [].
Proof.
  split.
  - intros H. apply admission_Accepted_inv in H as (H1 & H2 & H3 & H4 & H5 & H6).
    repeat split; auto. now apply cooldown_check_None.
  - intros (H1 & H2 & H3 & H4 & -> & H6).
    rewrite (admission_past_in_flight _ _ _ _ H1 H2 H3).
    apply cooldown_check_None in H4. rewrite H4.
    now destruct (extract_prompt self_id m).
Qed.

(** X5: a cooldown rejection is given only to a user other than the bot,
    for a message that triggers, when the user is not waiting for an answer
    and has an entry younger than the window; the value it carries is the
    double of line 109 for the elapsed time, and that double is more than
    zero. *)
Theorem cooldown_rejection_inv st now m remaining :
  admission self_id st now m = OnCooldown remaining ->
  author_id m <> self_id /\
  triggers m = true /\
  (author_id m ∉ users_awaiting_response st) /\
  exists last,
    user_cooldowns st !! author_id m = Some last /\
    now - last < timedelta_of_seconds COOLDOWN_SECONDS /\
    remaining = remaining_time (now - last) /\
    (0 < remaining)%Q.
Proof.
  unfold admission, triggers.
  destruct (N.eqb_spec (author_id m) self_id) as [|Hself]; [discriminate|].
  destruct (is_command m || is_mention m) eqn:Htrig;
    [|rewrite <- negb_orb, Htrig; discriminate].
  rewrite <- negb_orb, Htrig. cbn [negb].
  destruct (bool_decide_reflect (author_id m ∈ users_awaiting_response st))
    as [|Hfree]; [discriminate|].
  destruct (cooldown_check st now (author_id m)) as [r|] eqn:Hc;
    [|destruct (extract_prompt self_id m); discriminate].
  intros [= <-]. apply cooldown_check_Some in Hc as (last & Hlast & Hlt & ->).
  split; [exact Hself|]. split; [reflexivity|]. split; [exact Hfree|].
  exists last. split; [exact Hlast|]. split; [exact Hlt|].
  split; [reflexivity|]. now apply remaining_time_positive.
Qed.

End MoreAdmissionFacts.

Lemma cooldown_rejection_inv_witness :
  exists last,
    ({[ 7%N := 0 ]} : gmap N Z) !! 7%N = Some last /\
    5250000 - last < timedelta_of_seconds COOLDOWN_SECONDS /\
    (39 # 4)%Q = remaining_time (5250000 - last).
Proof.
  destruct (cooldown_rejection_inv 1
              {| user_cooldowns := {[ 7%N := 0 ]}; users_awaiting_response := ∅ |}
              5250000 {| author_id := 7; content := lit "!ask again"; is_mention := false |}
              (39 # 4)%Q)
    as (_ & _ & _ & last & Hlast & Hlt & Hrem & _).
  - vm_compute. reflexivity.
  - exists last. split; [exact Hlast|]. split; [exact Hlt|exact Hrem].
Defined.

(** ** More on the handler *)

Section MoreHandlerFacts.

Variables (self_id : N) (endpoint : option str) (w : World).

(** The exception a pipeline run ends with. *)
Lemma pipeline_exception st user_id prompt :
  snd (pipeline endpoint w st user_id prompt) =
  match typing_enter w with
  | Some e => Some e
  | None =>
      match snd (get_ai_response endpoint (http w) prompt) with
      | Raise e => Some e
      | Return _ => reply_delivery w
      end
  end.
Proof.
  rewrite pipeline_unfold. cbv zeta. cbn [snd]. unfold try_body.
  destruct (typing_enter w); [reflexivity|].
  destruct (get_ai_response _ _ _) as [log [reply|e]]; simpl; [|reflexivity].
  destruct (reply_delivery w); reflexivity.
Qed.

Lemma asked_prompts_app a b :
  asked_prompts (a ++ b) = asked_prompts a ++ asked_prompts b.
Proof.
  induction a as [|x a IH]; simpl; [reflexivity|].
  destruct x; simpl; now rewrite ?IH.
Qed.

Lemma asked_prompts_map_Log log : asked_prompts (map Log log) = [].
Proof. induction log; simpl; auto. Qed.

(** The prompts a pipeline run hands to [get_ai_response]. *)
Lemma pipeline_asked st user_id prompt :
  asked_prompts (snd (fst (pipeline endpoint w st user_id prompt))) =
  match typing_enter w with
  | Some _ => []
  | None => [prompt]
  end.
Proof.
  rewrite pipeline_unfold. cbv zeta. cbn [fst snd]. unfold try_body.
  destruct (typing_enter w); [reflexivity|].
  destruct (get_ai_response _ _ _) as [log [reply|e]]; cbn [fst snd];
    [destruct (reply_delivery w); cbn [fst snd]|];
    cbn [app asked_prompts];
    rewrite ?asked_prompts_app, ?asked_prompts_map_Log; reflexivity.
Qed.

(** Everything the HTTP layer can raise being an [Exception], the call
    returns. *)
Lemma tame_http_returns http prompt :
  raises_only_Exception http ->
  exists reply, snd (get_ai_response endpoint http prompt) = Return reply.
Proof.
  intros Htame. rewrite get_ai_response_classify. unfold classify.
  destruct (endpoint_missing endpoint); [now eexists|].
  destruct (classify_attempt _ _) as [o|e] eqn:Ec; [now eexists|].
  rewrite (classify_attempt_tame _ _ Htame _ Ec).
  destruct (is_ClientConnectorError e); now eexists.
Qed.

(** X6: whatever the message and the world, a run of [on_message] leaves
    the set of waiting users as it found it, leaves the cooldown entry of
    every user other than the author alone, and either leaves the author's
    entry alone or sets it to the time read on line 135. *)
Theorem on_message_frame st m :
  let st' := fst (fst (on_message self_id endpoint w st m)) in
  users_awaiting_response st' = users_awaiting_response st /\
  (forall u, u <> author_id m -> user_cooldowns st' !! u = user_cooldowns st !! u) /\
  (user_cooldowns st' !! author_id m = user_cooldowns st !! author_id m \/
   user_cooldowns st' !! author_id m = Some (clock_done w)).
Proof.
  cbv zeta. unfold on_message.
  destruct (admission self_id st (clock_check w) m) as [| | | |p] eqn:Hacc;
    try (repeat split; auto).
  - apply admission_Accepted_inv in Hacc as (_ & _ & Hfree & _).
    destruct (pipeline_awaiting endpoint w st (author_id m) p) as [-> _].
    set_solver.
  - intros u Hu. rewrite pipeline_cooldown.
    destruct (typing_enter w); [reflexivity|].
    destruct (snd (get_ai_response _ _ _)); [|reflexivity].
    destruct (reply_delivery w); [reflexivity|].
    now apply lookup_insert_ne.
  - rewrite pipeline_cooldown.
    destruct (typing_enter w); [now left|].
    destruct (snd (get_ai_response _ _ _)); [|now left].
    destruct (reply_delivery w); [now left|].
    right. apply lookup_insert_eq.
Qed.

(** X7: an accepted request records the completion time for its author
    when the handler ends without an exception, and leaves the cooldown
    registry untouched when the handler ends with one (the typing
    indicator or the reply could not be sent, or the call was cancelled). *)
Theorem cooldown_recorded_iff_completed st m prompt :
  admission self_id st (clock_check w) m = Accepted prompt ->
  let '(st', _, exc) := on_message self_id endpoint w st m in
  match exc with
  | None => user_cooldowns st' = <[author_id m := clock_done w]> (user_cooldowns st)
  | Some _ => user_cooldowns st' = user_cooldowns st
  end.
Proof.
  intros Hacc. unfold on_message. rewrite Hacc.
  pose proof (pipeline_cooldown endpoint w st (author_id m) prompt) as Hc.
  pose proof (pipeline_exception st (author_id m) prompt) as He.
  destruct (pipeline _ _ _ _ _) as [[st' actions] exc]. cbn [fst snd] in *.
  subst exc. rewrite Hc.
  destruct (typing_enter w); [reflexivity|].
  destruct (snd (get_ai_response _ _ _)); [|reflexivity].
  destruct (reply_delivery w); reflexivity.
Qed.

(** X8: one message leads to at most one call of [get_ai_response]; a call
    is made for an accepted message only, and its prompt is not empty and
    has no white space at either end. *)
Theorem inference_called_at_most_once st m :
  let asked := asked_prompts (snd (fst (on_message self_id endpoint w st m))) in
  asked = [] \/
  exists p, asked = [p] /\
            admission self_id st (clock_check w) m = Accepted p /\
            p <> [] /\ strip p = p.
Proof.
  cbv zeta. unfold on_message.
  destruct (admission self_id st (clock_check w) m) as [| | | |p] eqn:Hacc;
    try (now left).
  rewrite pipeline_asked. destruct (typing_enter w); [now left|].
  right. exists p. split; [reflexivity|]. split; [reflexivity|].
  apply admission_Accepted_inv in Hacc as (_ & _ & _ & _ & -> & Hne).
  split; [exact Hne|apply extract_prompt_stripped].
Qed.

(** X9: if the clock does not run backwards during a run, a user's cooldown
    entry is either left as it was or moved forward by at least the
    cooldown window. *)
Theorem completions_window_apart st m last last' :
  clock_check w <= clock_done w ->
  user_cooldowns st !! author_id m = Some last ->
  user_cooldowns (fst (fst (on_message self_id endpoint w st m))) !! author_id m
  = Some last' ->
  last' = last \/ last + timedelta_of_seconds COOLDOWN_SECONDS <= last'.
Proof.
  intros Hclock Hlast. unfold on_message.
  destruct (admission self_id st (clock_check w) m) as [| | | |p] eqn:Hacc;
    cbn [fst snd]; try (rewrite Hlast; intros [= <-]; now left).
  apply admission_Accepted_inv in Hacc as (_ & _ & _ & Hold & _).
  pose proof (proj1 (cooldown_check_None _ _ _) Hold last Hlast) as Hold'.
  rewrite pipeline_cooldown.
  destruct (typing_enter w); [rewrite Hlast; intros [= <-]; now left|].
  destruct (snd (get_ai_response _ _ _)); [|rewrite Hlast; intros [= <-]; now left].
  destruct (reply_delivery w); [rewrite Hlast; intros [= <-]; now left|].
  rewrite lookup_insert_eq. intros [= <-]. right. lia.
Qed.

(** X10: when the gateway accepts every send and the typing indicator, and
    everything the HTTP layer raises is an instance of [Exception], the
    handler ends without an exception, for every state and message: no
    failure of the inference service reaches the event loop. *)
Theorem on_message_completes st m :
  notice_delivery w = None ->
  typing_enter w = None ->
  reply_delivery w = None ->
  raises_only_Exception (http w) ->
  snd (on_message self_id endpoint w st m) = None.
Proof.
  intros Hnotice Htyping Hreply Htame. unfold on_message.
  destruct (admission self_id st (clock_check w) m) as [| | | |p]; auto.
  rewrite pipeline_exception, Htyping.
  destruct (tame_http_returns (http w) p Htame) as [reply ->]. exact Hreply.
Qed.

End MoreHandlerFacts.

Lemma cooldown_recorded_iff_completed_witness :
  let '(st', _, exc) :=
    on_message 1 (Some (lit "http://localhost:1234"))
      {| clock_check := 0; notice_delivery := None; typing_enter := None;
         http := fun _ => Raise ClientConnectorError;
         reply_delivery := Some HTTPException; clock_done := 5 |}
      empty_state
      {| author_id := 7; content := lit "!ask hello"; is_mention := false |} in
  match exc with
  | None => user_cooldowns st' = <[7%N := 5]> (user_cooldowns empty_state)
  | Some _ => user_cooldowns st' = user_cooldowns empty_state
  end.
Proof.
  apply (cooldown_recorded_iff_completed 1 (Some (lit "http://localhost:1234"))
           {| clock_check := 0; notice_delivery := None; typing_enter := None;
              http := fun _ => Raise ClientConnectorError;
              reply_delivery := Some HTTPException; clock_done := 5 |}
           empty_state
           {| author_id := 7; content := lit "!ask hello"; is_mention := false |}
           (lit "hello")).
  reflexivity.
Defined.

Lemma completions_window_apart_witness :
  17000000 = 0 \/ 0 + timedelta_of_seconds COOLDOWN_SECONDS <= 17000000.
Proof.
  apply (completions_window_apart 1 (Some (lit "http://localhost:1234"))
           {| clock_check := 16000000; notice_delivery := None; typing_enter := None;
              http := fun _ => Raise ClientConnectorError;
              reply_delivery := None; clock_done := 17000000 |}
           {| user_cooldowns := {[ 7%N := 0 ]}; users_awaiting_response := ∅ |}
           {| author_id := 7; content := lit "!ask hello"; is_mention := false |}).
  - simpl. lia.
  - apply lookup_singleton_eq.
  - vm_compute. reflexivity.
Defined.

Lemma on_message_completes_witness :
  snd (on_message 1 (Some (lit "http://localhost:1234"))
         {| clock_check := 0; notice_delivery := None; typing_enter := None;
            http := fun _ => Raise ClientConnectorError;
            reply_delivery := None; clock_done := 5 |}
         empty_state
         {| author_id := 7; content := lit "!ask hello"; is_mention := false |})
  = None.
Proof.
  apply on_message_completes; try reflexivity.
  intros req. reflexivity.
Defined.

(** ** More on prompt extraction and start-up *)

Lemma remove_from_skip (old l rest : str) :
  remove_from old (length l) (l ++ rest) = remove_from old O rest.
Proof. induction l as [|c l IH]; simpl; [reflexivity|exact IH]. Qed.

(** A leading occurrence is removed and the scan goes on behind it. *)
Lemma remove_all_leading (old rest : str) :
  old <> [] -> remove_all old (old ++ rest) = remove_all old rest.
Proof.
  unfold remove_all. destruct old as [|c old]; [congruence|]. intros _.
  change ((c :: old) ++ rest) with (c :: (old ++ rest)).
  cbn [remove_from].
  change (c :: old ++ rest) with ((c :: old) ++ rest).
  rewrite startswith_app. cbn [length Nat.pred]. apply remove_from_skip.
Qed.

Lemma mention_token_not_nil self_id : mention_token self_id <> [].
Proof. discriminate. Qed.

(** X11: for a message that triggers by mention only: when the content
    begins with the bot's token [<@id>] and has no other occurrence of it,
    the prompt is the rest of the content, stripped; when the token does
    not occur at all (the mention came from a reply, from [@everyone], or
    in another spelling), the prompt is the whole content, stripped. *)
Theorem mention_prompt self_id m rest :
  is_mention m = true ->
  contains (mention_token self_id) rest = false ->
  (content m = mention_token self_id ++ rest ->
   extract_prompt self_id m = strip rest) /\
  (content m = rest -> is_command m = false ->
   extract_prompt self_id m = strip rest).
Proof.
  intros Hmention Habsent. split.
  - intros Hcontent.
    assert (Hcommand : is_command m = false)
      by (unfold is_command; now rewrite Hcontent).
    unfold extract_prompt. rewrite Hcommand, Hmention, Hcontent.
    rewrite remove_all_leading by apply mention_token_not_nil.
    now rewrite remove_all_absent.
  - intros Hcontent Hcommand. unfold extract_prompt.
    rewrite Hcommand, Hmention, Hcontent. now rewrite remove_all_absent.
Qed.

(** X12: the start-up check tests for [None] while the inference call tests
    for a false value, so the one configuration that starts the bot and has
    every call answered "not configured", without any request sent, is an
    endpoint set to the empty string. *)
Theorem empty_endpoint_runs_unconfigured token endpoint :
  (main (Some token) endpoint = Running token /\ endpoint_missing endpoint = true
   <-> endpoint = Some []) /\
  (endpoint_missing endpoint = true ->
   forall http prompt,
     get_ai_response endpoint http prompt = ([], Return msg_not_configured)).
Proof.
  split.
  - destruct endpoint as [[|c e]|]; simpl; split; try tauto;
      try (intros [_ H]; discriminate); try (intros [H _]; discriminate);
      discriminate.
  - intros Hmissing http prompt. unfold get_ai_response. now rewrite Hmissing.
Qed.

Lemma mention_prompt_witness :
  extract_prompt 1 {| author_id := 7; content := lit "<@1> what is new "; is_mention := true |}
  = strip (lit " what is new ").
Proof.
  apply (proj1 (mention_prompt 1
                  {| author_id := 7; content := lit "<@1> what is new "; is_mention := true |}
                  (lit " what is new ") eq_refl eq_refl)).
  reflexivity.
Defined.

Lemma empty_endpoint_runs_unconfigured_witness :
  get_ai_response (Some []) (fun _ => Raise ClientConnectorError) (lit "hello")
  = ([], Return msg_not_configured).
Proof.
  apply (proj2 (empty_endpoint_runs_unconfigured (lit "token") (Some []))).
  reflexivity.
Defined.

(** ** More on interleaved handlers *)

Section MoreLoopFacts.

Import Loop.

Variables (self_id : N) (endpoint : option str).

Lemma initial_well_served : well_served self_id initial.
Proof. split; [constructor|apply lookup_empty]. Qed.

Lemma Forall_middle {A} (P : A -> Prop) before t t' after :
  Forall P (before ++ t :: after) -> P t' -> Forall P (before ++ t' :: after).
Proof.
  rewrite !Forall_app, !Forall_cons. tauto.
Qed.

Lemma step_well_served sys sys' :
  well_served self_id sys -> step self_id endpoint sys sys' -> well_served self_id sys'.
Proof.
  intros [Hall Hself] Hstep. destruct Hstep; simpl in *.
  - destruct (admission self_id st now m) as [| | | |p] eqn:Hacc;
      try (split; assumption).
    apply admission_Accepted_inv in Hacc as (Hne & _ & _ & _ & -> & Hp).
    split; simpl; [|exact Hself].
    constructor; [|exact Hall].
    simpl. repeat split; auto. apply extract_prompt_stripped.
  - split; [|exact Hself]. apply (Forall_middle _ _ _ _ _ Hall).
    apply Forall_app in Hall as [_ Hall]. now apply Forall_cons in Hall as [Ht _].
  - split; [|exact Hself]. apply (Forall_middle _ _ _ _ _ Hall).
    apply Forall_app in Hall as [_ Hall]. now apply Forall_cons in Hall as [Ht _].
  - split; [|exact Hself]. apply (Forall_middle _ _ _ _ _ Hall).
    apply Forall_app in Hall as [_ Hall]. now apply Forall_cons in Hall as [Ht _].
  - assert (Ht : user t <> self_id).
    { apply Forall_app in Hall as [_ Hall]. now apply Forall_cons in Hall as [[Ht _] _]. }
    split; simpl.
    + apply (Forall_middle _ _ _ _ _ Hall).
      apply Forall_app in Hall as [_ Hall]. now apply Forall_cons in Hall as [Hu _].
    + now rewrite lookup_insert_ne.
  - split.
    + simpl. apply Forall_app in Hall as [Hb Hall].
      apply Forall_cons in Hall as [_ Ha]. now apply Forall_app.
    + simpl. now destruct (set_remove _ _).
Qed.

Lemma reachable_well_served sys :
  rtc (step self_id endpoint) initial sys -> well_served self_id sys.
Proof.
  revert sys. apply (rtc_ind_r (well_served self_id) initial).
  - apply initial_well_served.
  - intros y z _ Hstep IH. now apply (step_well_served y).
Qed.

(** X13: in every state the event loop can reach, no user is served by
    two handlers, and [users_awaiting_response] holds exactly the users
    being served. *)
Theorem loop_one_handler_per_user sys :
  rtc (step self_id endpoint) initial sys ->
  NoDup (map user (tasks sys)) /\
  forall u, u ∈ users_awaiting_response (shared sys) <-> u ∈ map user (tasks sys).
Proof. intros Hreach. exact (reachable_consistent self_id endpoint sys Hreach). Qed.

(** X14: in every reachable state the bot serves no request of its own:
    its id is neither waiting nor on cooldown; and every request being
    served has a prompt that is not empty and is stripped. *)
Theorem loop_bot_never_served sys :
  rtc (step self_id endpoint) initial sys ->
  (self_id ∉ users_awaiting_response (shared sys)) /\
  user_cooldowns (shared sys) !! self_id = None /\
  Forall (fun t => user t <> self_id /\ prompt t <> [] /\ strip (prompt t) = prompt t)
         (tasks sys).
Proof.
  intros Hreach.
  destruct (reachable_well_served sys Hreach) as [Hall Hself].
  destruct (reachable_consistent self_id endpoint sys Hreach) as [_ Hiff].
  split; [|split; assumption].
  intros Hin. apply Hiff in Hin.
  apply list_elem_of_In, in_map_iff in Hin as (t & Ht & Hin).
  rewrite Forall_forall in Hall.
  apply list_elem_of_In in Hin. now destruct (Hall t Hin).
Qed.


Lemma cooldowns_grow_step sys sys' u :
  step self_id endpoint sys sys' ->
  is_Some (user_cooldowns (shared sys) !! u) ->
  is_Some (user_cooldowns (shared sys') !! u).
Proof.
  intros Hstep. destruct Hstep; simpl; auto.
  - now destruct (admission self_id st now m).
  - intros Hu. destruct (decide (user t = u)) as [->|Hne].
    + rewrite lookup_insert_eq. eauto.
    + now rewrite lookup_insert_ne.
  - now destruct (set_remove _ _).
Qed.

(** X16: the cooldown registry only grows: a user who has an entry in some
    state has one in every state reached from it; no step removes an
    entry. *)
Theorem loop_cooldowns_only_grow sys sys' u :
  rtc (step self_id endpoint) sys sys' ->
  is_Some (user_cooldowns (shared sys) !! u) ->
  is_Some (user_cooldowns (shared sys') !! u).
Proof.
  intros Hreach. induction Hreach as [|x y z Hstep _ IH]; [auto|].
  intros Hu. apply IH. now apply (cooldowns_grow_step x).
Qed.

End MoreLoopFacts.

(** Two reachable states used below: user 7 being served, and user 7's
    handler at its [finally] clause after the typing indicator failed. *)
Lemma served_state_reachable :
  rtc (Loop.step 1 (Some (lit "http://localhost:1234"))) Loop.initial
    {| Loop.shared := set_awaiting empty_state ({[ 7%N ]} ∪ ∅);
       Loop.tasks := [ {| Loop.user := 7; Loop.prompt := lit "hello";
                          Loop.stage := Loop.Inferring |} ] |}.
Proof.
  apply rtc_once.
  pose proof (Loop.step_message 1 (Some (lit "http://localhost:1234")) empty_state [] 0
                {| author_id := 7; content := lit "!ask hello"; is_mention := false |})
    as Hstep.
  assert (Hacc : admission 1 empty_state 0
                   {| author_id := 7; content := lit "!ask hello"; is_mention := false |}
                 = Accepted (lit "hello")) by (vm_compute; reflexivity).
  rewrite Hacc in Hstep. exact Hstep.
Qed.

Lemma leaving_state_reachable :
  rtc (Loop.step 1 (Some (lit "http://localhost:1234"))) Loop.initial
    {| Loop.shared := set_awaiting empty_state ({[ 7%N ]} ∪ ∅);
       Loop.tasks := [] ++ {| Loop.user := 7; Loop.prompt := lit "hello";
                              Loop.stage := Loop.Leaving (Some HTTPException) |} :: [] |}.
Proof.
  eapply rtc_r; [apply served_state_reachable|].
  apply (Loop.step_typing_raises 1 (Some (lit "http://localhost:1234"))
           (set_awaiting empty_state ({[ 7%N ]} ∪ ∅)) []
           {| Loop.user := 7; Loop.prompt := lit "hello"; Loop.stage := Loop.Inferring |}
           [] HTTPException eq_refl).
Qed.

Lemma leave_releases_witness :
  set_remove 7 (users_awaiting_response (set_awaiting empty_state ({[ 7%N ]} ∪ ∅)))
  = Return (users_awaiting_response (set_awaiting empty_state ({[ 7%N ]} ∪ ∅)) ∖ {[ 7%N ]}).
Proof.
  exact (proj1 (proj2 (proj2
           (leave_releases 1 (Some (lit "http://localhost:1234"))
              (set_awaiting empty_state ({[ 7%N ]} ∪ ∅)) []
              {| Loop.user := 7; Loop.prompt := lit "hello";
                 Loop.stage := Loop.Leaving (Some HTTPException) |}
              [] (Some HTTPException) leaving_state_reachable eq_refl)))).
Defined.

Lemma loop_one_handler_per_user_witness :
  7%N ∈ ({[ 7%N ]} ∪ ∅ : gset N) <-> 7%N ∈ [7%N].
Proof.
  exact (proj2 (loop_one_handler_per_user 1 (Some (lit "http://localhost:1234")) _
                  served_state_reachable) 7%N).
Defined.

Lemma loop_bot_never_served_witness :
  1%N ∉ ({[ 7%N ]} ∪ ∅ : gset N).
Proof.
  exact (proj1 (loop_bot_never_served 1 (Some (lit "http://localhost:1234")) _
                  served_state_reachable)).
Defined.


Lemma loop_cooldowns_only_grow_witness :
  is_Some (user_cooldowns
             (set_cooldown {| user_cooldowns := {[ 3%N := 0 ]};
                              users_awaiting_response := {[ 7%N ]} |} 7 5000000)
           !! 3%N).
Proof.
  apply (loop_cooldowns_only_grow 1 None
           {| Loop.shared := {| user_cooldowns := {[ 3%N := 0 ]};
                                users_awaiting_response := {[ 7%N ]} |};
              Loop.tasks := [] ++ {| Loop.user := 7; Loop.prompt := lit "hello";
                                     Loop.stage := Loop.Replying (lit "hi") |} :: [] |}
           {| Loop.shared :=
                set_cooldown {| user_cooldowns := {[ 3%N := 0 ]};
                                users_awaiting_response := {[ 7%N ]} |} 7 5000000;
              Loop.tasks := [] ++ Loop.at_stage
                                    {| Loop.user := 7; Loop.prompt := lit "hello";
                                       Loop.stage := Loop.Replying (lit "hi") |}
                                    (Loop.Leaving None) :: [] |}
           3%N).
  - apply rtc_once.
    apply (Loop.step_reply_sent 1 None
             {| user_cooldowns := {[ 3%N := 0 ]}; users_awaiting_response := {[ 7%N ]} |}
             [] {| Loop.user := 7; Loop.prompt := lit "hello";
                   Loop.stage := Loop.Replying (lit "hi") |}
             [] (lit "hi") 5000000 eq_refl).
  - simpl. rewrite lookup_singleton_eq. eauto.
Defined.

(** ** Mentions of other users *)

Section MentionFacts.

Lemma uint_digits (d : Decimal.uint) :
  forallb is_digit (lit (NilEmpty.string_of_uint d)) = true.
Proof. induction d; simpl; auto. Qed.

(** The decimal rendering of a non-negative id consists of digits. *)
Lemma id_digits (n : N) : forallb is_digit (of_int (Z.of_N n)) = true.
Proof.
  unfold of_int. destruct n as [|p]; [reflexivity|].
  simpl Z.of_N. simpl Z.to_int. unfold NilZero.string_of_int, NilZero.string_of_uint.
  destruct (Pos.to_uint p) eqn:E; try (rewrite <- E; apply uint_digits).
  reflexivity.
Qed.

Lemma contains_without_head (c : N) (p s : str) :
  forallb (fun x => negb (c =? x)%N) s = true -> contains (c :: p) s = false.
Proof.
  induction s as [|x s IH]; cbn [forallb contains startswith]; [reflexivity|].
  intros H. apply andb_prop in H as [Hx Hs].
  apply negb_true_iff in Hx. rewrite Hx. cbn [andb orb]. now apply IH.
Qed.

Lemma digits_then_close (a b : str) :
  forallb is_digit a = true -> forallb is_digit b = true ->
  startswith (a ++ [62%N]) (b ++ [62%N]) = true -> a = b.
Proof.
  revert b. induction a as [|x a IH]; intros [|y b] Ha Hb;
    cbn [app startswith forallb] in *.
  - reflexivity.
  - apply andb_prop in Hb as [Hy _]. intros H. apply andb_prop in H as [H _].
    apply N.eqb_eq in H. subst y. discriminate.
  - apply andb_prop in Ha as [Hx _]. intros H. apply andb_prop in H as [H _].
    apply N.eqb_eq in H. subst x. discriminate.
  - apply andb_prop in Ha as [_ Ha]. apply andb_prop in Hb as [_ Hb].
    intros H. apply andb_prop in H as [Hxy H].
    apply N.eqb_eq in Hxy. subst y. f_equal. now apply IH.
Qed.

Lemma digits_not_open (s : str) :
  forallb is_digit s = true -> forallb (fun x => negb (60 =? x)%N) s = true.
Proof.
  induction s as [|x s IH]; cbn [forallb]; [reflexivity|].
  intros H. apply andb_prop in H as [Hx Hs]. rewrite (IH Hs), andb_true_r.
  unfold is_digit in Hx. apply andb_prop in Hx as [_ Hhi].
  apply N.leb_le in Hhi. apply negb_true_iff, N.eqb_neq. lia.
Qed.

(** The token of one user does not occur in the token of another. *)
Lemma other_token_absent (self_id other : N) :
  other <> self_id ->
  contains (mention_token self_id) (mention_token other) = false.
Proof.
  intros Hne. unfold mention_token.
  change (lit "<@") with [60%N; 64%N]. change (lit ">") with [62%N].
  cbn [app]. cbn [contains].
  apply orb_false_intro.
  - cbn [startswith]. rewrite !N.eqb_refl. cbn [andb].
    destruct (startswith _ _) eqn:E; [|reflexivity].
    apply digits_then_close in E; try apply id_digits.
    apply of_int_inj, N2Z.inj in E. congruence.
  - apply contains_without_head. cbn [forallb].
    rewrite forallb_app. apply andb_true_intro.
    split; [apply digits_not_open, id_digits|reflexivity].
Qed.

Lemma strip_nonspace_ends (c d : N) (mid : str) :
  isspace c = false -> isspace d = false ->
  strip (c :: mid ++ [d]) = c :: mid ++ [d].
Proof.
  intros Hc Hd. unfold strip. cbn [lstrip]. rewrite Hc. unfold rstrip.
  assert (Hrev : rev (c :: mid ++ [d]) = d :: rev mid ++ [c])
    by (simpl; now rewrite rev_app_distr).
  rewrite Hrev. cbn [lstrip]. rewrite Hd, <- Hrev. apply rev_involutive.
Qed.

Lemma strip_token (n : N) : strip (mention_token n) = mention_token n.
Proof.
  change (mention_token n) with (60 :: (64 :: of_int (Z.of_N n)) ++ [62])%N.
  now apply strip_nonspace_ends.
Qed.

(** X17: in a message that triggers by mention, only the bot's own token
    is taken out: the token of another user never contains the bot's, even
    when the other id begins with the bot's id, so a message made of the
    bot's mention, a space and another user's mention has that other
    mention as its prompt. *)
Theorem other_mention_kept self_id other author :
  other <> self_id ->
  contains (mention_token self_id) (mention_token other) = false /\
  extract_prompt self_id
    {| author_id := author;
       content := mention_token self_id ++ lit " " ++ mention_token other;
       is_mention := true |}
  = mention_token other.
Proof.
  intros Hne. pose proof (other_token_absent _ _ Hne) as Habsent.
  split; [exact Habsent|].
  assert (Hrest : contains (mention_token self_id) (lit " " ++ mention_token other) = false).
  { change (lit " ") with [32%N]. cbn [app contains].
    rewrite Habsent. reflexivity. }
  assert (Hcommand : is_command
            {| author_id := author;
               content := mention_token self_id ++ lit " " ++ mention_token other;
               is_mention := true |} = false) by reflexivity.
  unfold extract_prompt. rewrite Hcommand. cbn [is_mention content].
  rewrite remove_all_leading by apply mention_token_not_nil.
  rewrite (remove_all_absent _ _ Hrest).
  change (lit " ") with [32%N]. unfold strip at 1. cbn [app lstrip].
  change (isspace 32) with true. cbv iota.
  apply strip_token.
Qed.

End MentionFacts.

Lemma other_mention_kept_witness :
  extract_prompt 12
    {| author_id := 7; content := lit "<@12> <@123>"; is_mention := true |}
  = lit "<@123>".
Proof.
  exact (proj2 (other_mention_kept 12 123 7 ltac:(discriminate))).
Defined.

(** ** What a run sends, and the request after it *)

Section SendingFacts.

Variables (self_id : N) (endpoint : option str) (w : World).

Lemma notices_app a b : notices (a ++ b) = notices a ++ notices b.
Proof.
  induction a as [|x a IH]; simpl; [reflexivity|].
  destruct x; simpl; now rewrite ?IH.
Qed.

Lemma replies_app a b : replies (a ++ b) = replies a ++ replies b.
Proof.
  induction a as [|x a IH]; simpl; [reflexivity|].
  destruct x; simpl; now rewrite ?IH.
Qed.

Lemma sends_map_Log log : notices (map Log log) = [] /\ replies (map Log log) = [].
Proof. induction log; simpl; auto. Qed.

(** What a pipeline run sends. *)
Lemma pipeline_sends st user_id prompt :
  notices (snd (fst (pipeline endpoint w st user_id prompt))) = [] /\
  replies (snd (fst (pipeline endpoint w st user_id prompt))) =
  match typing_enter w, snd (get_ai_response endpoint (http w) prompt) with
  | None, Return reply => [reply]
  | _, _ => []
  end.
Proof.
  rewrite pipeline_unfold. cbv zeta. cbn [fst snd]. unfold try_body.
  destruct (typing_enter w); [now split|].
  destruct (get_ai_response _ _ _) as [log [reply|e]]; cbn [fst snd];
    [destruct (reply_delivery w); cbn [fst snd]|];
    cbn [app notices replies];
    rewrite ?notices_app, ?replies_app;
    destruct (sends_map_Log log) as [-> ->]; now split.
Qed.

(** X18: one incoming message makes the handler send at most one message.
    An ignored message sends nothing; a rejected one sends one notice that
    is deleted after 10 seconds and no reply; an accepted one sends no
    notice and at most one reply, which is word for word what
    [get_ai_response] returned. *)
Theorem one_message_sent_at_most st m :
  let actions := snd (fst (on_message self_id endpoint w st m)) in
  match admission self_id st (clock_check w) m with
  | Ignored => notices actions = [] /\ replies actions = []
  | Accepted p =>
      notices actions = [] /\
      (replies actions = [] \/
       exists reply, replies actions = [reply] /\
                     snd (get_ai_response endpoint (http w) p) = Return reply)
  | _ => replies actions = [] /\ exists n, notices actions = [(n, 10)]
  end.
Proof.
  cbv zeta. unfold on_message.
  destruct (admission self_id st (clock_check w) m) as [| | | |p];
    cbn [fst snd notices replies]; try (split; eauto).
  - apply pipeline_sends.
  - destruct (pipeline_sends st (author_id m) p) as [_ ->].
    destruct (typing_enter w); [now left|].
    destruct (snd (get_ai_response _ _ _)) as [reply|e]; [|now left].
    right. now exists reply.
Qed.

(** The state an accepted request leaves when the handler ends without an
    exception. *)
Lemma completed_run_state st m prompt :
  admission self_id st (clock_check w) m = Accepted prompt ->
  snd (on_message self_id endpoint w st m) = None ->
  user_cooldowns (fst (fst (on_message self_id endpoint w st m)))
  = <[author_id m := clock_done w]> (user_cooldowns st) /\
  users_awaiting_response (fst (fst (on_message self_id endpoint w st m)))
  = users_awaiting_response st.
Proof.
  intros Hacc. unfold on_message. rewrite Hacc.
  rewrite pipeline_exception, pipeline_cooldown.
  destruct (pipeline_awaiting endpoint w st (author_id m) prompt) as [-> _].
  apply admission_Accepted_inv in Hacc as (_ & _ & Hfree & _).
  destruct (typing_enter w); [discriminate|].
  destruct (snd (get_ai_response _ _ _)); [|discriminate].
  intros ->. split; [reflexivity|set_solver].
Qed.

(** X19: after a request of a user has been completed (reply delivered,
    whatever it says), a further triggering message of that user is
    rejected with [OnCooldown] while less than the window has passed since
    the completion, and is accepted again from then on if it has a
    prompt. *)
Theorem next_request_after_completion st m prompt m' now' :
  admission self_id st (clock_check w) m = Accepted prompt ->
  snd (on_message self_id endpoint w st m) = None ->
  author_id m' = author_id m ->
  triggers m' = true ->
  let st' := fst (fst (on_message self_id endpoint w st m)) in
  (now' - clock_done w < timedelta_of_seconds COOLDOWN_SECONDS ->
   exists remaining, admission self_id st' now' m' = OnCooldown remaining) /\
  (timedelta_of_seconds COOLDOWN_SECONDS <= now' - clock_done w ->
   extract_prompt self_id m' <> [] ->
   admission self_id st' now' m' = Accepted (extract_prompt self_id m')).
Proof.
  intros Hacc Hdone Hsame Htrig st'.
  destruct (completed_run_state st m prompt Hacc Hdone) as [Hcool Haw].
  fold st' in Hcool, Haw.
  apply admission_Accepted_inv in Hacc as (Hself & _ & Hfree & _).
  assert (Hfree' : author_id m' ∉ users_awaiting_response st')
    by now rewrite Haw, Hsame.
  assert (Hself' : author_id m' <> self_id) by now rewrite Hsame.
  rewrite !(admission_past_in_flight _ _ _ _ Hself' Htrig Hfree').
  unfold cooldown_check. rewrite Hcool, Hsame, lookup_insert_eq.
  destruct (Z.ltb_spec (now' - clock_done w) (timedelta_of_seconds COOLDOWN_SECONDS)).
  - split; [eauto|lia].
  - split; [lia|]. intros _ Hp. now destruct (extract_prompt self_id m').
Qed.

End SendingFacts.

Lemma next_request_after_completion_witness :
  exists remaining,
    admission 1
      (fst (fst (on_message 1 (Some (lit "http://localhost:1234"))
                   {| clock_check := 0; notice_delivery := None; typing_enter := None;
                      http := fun _ => Raise ClientConnectorError;
                      reply_delivery := None; clock_done := 2000000 |}
                   empty_state
                   {| author_id := 7; content := lit "!ask hello"; is_mention := false |})))
      9000000
      {| author_id := 7; content := lit "!ask again"; is_mention := false |}
    = OnCooldown remaining.
Proof.
  apply (proj1 (next_request_after_completion 1 (Some (lit "http://localhost:1234"))
                  {| clock_check := 0; notice_delivery := None; typing_enter := None;
                     http := fun _ => Raise ClientConnectorError;
                     reply_delivery := None; clock_done := 2000000 |}
                  empty_state
                  {| author_id := 7; content := lit "!ask hello"; is_mention := false |}
                  (lit "hello")
                  {| author_id := 7; content := lit "!ask again"; is_mention := false |}
                  9000000 eq_refl eq_refl eq_refl eq_refl)).
  simpl. unfold timedelta_of_seconds, COOLDOWN_SECONDS. lia.
Defined.
